(** * BPM-Monitoring-App: the heart-rate callback, the rolling history and
      the BLE session of [BPMMonitoringApp.py] and [BPMWithGUI.py]

    The two programs are embedded side by side, one module each, over a
    small model of the Python values they use: [bytearray] indexing, the
    bounded [collections.deque], exceptions, and [str] of an [int]. *)

From Stdlib Require Import ZArith String Ascii Strings.Byte Lia Bool
  PeanoNat DecimalString List.
Import ListNotations.

Local Infix "+++" := String.append (at level 60, right associativity).

(** ** Python values *)

Module Py.

(** An exception object: [Exception cls msg] for the subclasses of
    [Exception] (the ones [except Exception] catches), [BaseException cls
    msg] for the others ([KeyboardInterrupt], [asyncio.CancelledError]).
    [msg] is what [str(e)] gives. *)
Inductive exn : Type :=
| Exception (cls msg : string)
| BaseException (cls msg : string).

Definition isinstance_Exception (e : exn) : bool :=
  match e with
  | Exception _ _ => true
  | BaseException _ _ => false
  end.

Definition str_exn (e : exn) : string :=
  match e with
  | Exception _ msg => msg
  | BaseException _ msg => msg
  end.

Definition IndexError : exn :=
  Exception "IndexError" "bytearray index out of range".

Definition AttributeError (attr : string) : exn :=
  Exception "AttributeError"
    ("'HeartRateMonitorApp' object has no attribute '" +++ attr +++ "'").

(** The outcome of evaluating an expression or running a statement. *)
Inductive result (A : Type) : Type :=
| Ok (a : A)
| Raise (e : exn).
Arguments Ok {A} a.
Arguments Raise {A} e.

(** [bytearray]: what bleak hands to a notification callback. *)
Definition bytearray : Type := list byte.

Definition int_of_byte (b : byte) : Z := Z.of_N (Byte.to_N b).

(** [data[i]] for a literal [i >= 0]: the element as an [int] in
    [0, 255], [IndexError] out of range. *)
Definition getitem (data : bytearray) (i : nat) : result Z :=
  match nth_error data i with
  | Some b => Ok (int_of_byte b)
  | None => Raise IndexError
  end.

(** [str(n)] of an [int], as an f-string formats it. *)
Definition str (n : Z) : string := NilZero.string_of_int (Z.to_int n).

(** [x or default] on an optional string: [None] and [''] are falsy. *)
Definition or_ (x : option string) (default : string) : string :=
  match x with
  | Some (String c s) => String c s
  | Some EmptyString => default
  | None => default
  end.

(** [[x] * n] *)
Definition list_mul {A : Type} (x : A) (n : nat) : list A := repeat x n.

Definition nl : string := String (ascii_of_nat 10) EmptyString.

Definition ValueError : exn := Exception "ValueError" "empty separator".

Definition RecursionError : exn :=
  Exception "RecursionError" "maximum recursion depth exceeded".

(** The scan of [s.split(sep)]: [piece] is the current piece, [skip] what
    is left to drop of a separator just found. The leftmost separator wins
    and the search goes on after it. *)
Fixpoint split_from (sep s : string) (skip : nat) (piece : string)
  : list string :=
  match s with
  | EmptyString => [piece]
  | String c s' =>
      match skip with
      | S n => split_from sep s' n piece
      | O =>
          if prefix sep s
          then piece :: split_from sep s' (String.length sep - 1) EmptyString
          else split_from sep s' 0 (piece +++ String c EmptyString)
      end
  end.

(** [s.split(sep)] *)
Definition split (s sep : string) : result (list string) :=
  match sep with
  | EmptyString => Raise ValueError
  | String _ _ => Ok (split_from sep s 0 EmptyString)
  end.

(** [l[-1]] *)
Fixpoint getitem_last {A : Type} (l : list A) : result A :=
  match l with
  | [] => Raise (Exception "IndexError" "list index out of range")
  | [x] => Ok x
  | _ :: l' => getitem_last l'
  end.

End Py.

(** ** [collections.deque] with a [maxlen]

    [append] adds on the right and then, when the length exceeds [maxlen],
    drops one element on the left; the constructor appends the elements of
    its iterable one by one. *)

Module Deque.
Section Deque.
Context {A : Type}.

Record deque : Type := mk { items : list A; maxlen : nat }.

Definition empty (n : nat) : deque := mk [] n.

Definition append (d : deque) (x : A) : deque :=
  let l := items d ++ [x] in
  mk (if maxlen d <? length l then tl l else l) (maxlen d).

Definition extend (d : deque) (xs : list A) : deque :=
  fold_left append xs d.

(** [deque(iterable, maxlen=n)] *)
Definition new (iterable : list A) (n : nat) : deque :=
  extend (empty n) iterable.

(** [len(d)] *)
Definition len (d : deque) : nat := length (items d).

(** [list(d)]: the elements, oldest first; what [ax.plot(d)] reads. *)
Definition to_list (d : deque) : list A := items d.

End Deque.
Arguments deque A : clear implicits.
End Deque.

(** ** A state monad with exceptions, for the methods that mutate [self] *)

Definition M (S A : Type) : Type := S -> Py.result A * S.

Definition ret {S A : Type} (a : A) : M S A := fun s => (Py.Ok a, s).

Definition raise {S A : Type} (e : Py.exn) : M S A := fun s => (Py.Raise e, s).

Definition bind {S A B : Type} (m : M S A) (k : A -> M S B) : M S B :=
  fun s =>
    match m s with
    | (Py.Ok a, s') => k a s'
    | (Py.Raise e, s') => (Py.Raise e, s')
    end.

(** An expression that reads no state. *)
Definition eval {S A : Type} (r : Py.result A) : M S A := fun s => (r, s).

Notation "x <- m ;; k" := (bind m (fun x => k))
  (at level 61, m at next level, right associativity).
Notation "m ;;; k" := (bind m (fun _ => k))
  (at level 61, right associativity).

(** [try: m except Exception as e: handler(e)] *)
Definition try_except {S A : Type} (m : M S A) (handler : Py.exn -> M S A)
  : M S A :=
  fun s =>
    match m s with
    | (Py.Ok a, s') => (Py.Ok a, s')
    | (Py.Raise e, s') =>
        if Py.isinstance_Exception e then handler e s' else (Py.Raise e, s')
    end.

(** [for x in xs: body(x)] *)
Fixpoint for_ {S X : Type} (xs : list X) (body : X -> M S unit) : M S unit :=
  match xs with
  | [] => ret tt
  | x :: xs' => body x ;;; for_ xs' body
  end.

(** [enumerate(xs, start=1)] *)
Definition enumerate1 {X : Type} (xs : list X) : list (Z * X) :=
  combine (map Z.of_nat (seq 1 (length xs))) xs.

(** ** The BLE session as the coroutine sees it *)

Module Ble.

Definition HEART_RATE_UUID : string := "00002a37-0000-1000-8000-00805f9b34fb".

(** What the BLE stack answers to one run of the [async with
    BleakClient(...)] block. *)
Inductive attempt : Type :=
| connect_raises (e : Py.exn)       (* entering the [async with] raises *)
| is_connected_raises (e : Py.exn)  (* [await client.is_connected()] raises *)
| not_connected                     (* [is_connected()] is false *)
| start_notify_raises (e : Py.exn)  (* subscribing raises *)
| notifying.                        (* subscribed: the 1-second loop runs *)

(** What the coroutine does that is visible from outside. *)
Inductive event : Type :=
| Connect (address : string)
| Disconnect
| StartNotify (uuid : string)
| Print (line : string)
| Sleep (seconds : Z).

(** Where the coroutine is once the answers are used up. *)
Inductive status : Type :=
| Awaiting              (* inside a connect, no answer yet *)
| Streaming             (* in [while True: await asyncio.sleep(1)] *)
| Returned              (* the coroutine returned *)
| Raised (e : Py.exn).  (* the coroutine ended with an exception *)

(** A discovered peripheral: [device.name] and [device.address]. *)
Record BLEDevice : Type := { name : option string; address : string }.

End Ble.

(** [print]: a line added to the standard output of the process, which the
    state carries along. *)
Class Stdout (S : Type) : Type := put_line : string -> S -> S.

Definition print {S : Type} `{Stdout S} (s : string) : M S unit :=
  fun self => (Py.Ok tt, put_line s self).

#[export] Instance Stdout_lines : Stdout (list string) :=
  fun s out => out ++ [s].

(** ** BPMMonitoringApp.py *)

Module BPMMonitoringApp.
Import Py Ble.

(** [scanDevices]: [discover] is what [await BleakScanner.discover()]
    gives; the state is the standard output. *)
Definition scanDevices (discover : result (list BLEDevice))
  : M (list string) unit :=
  print "🔍 Scanning for devices..." ;;;
  devices <- eval discover ;;
  match devices with
  | [] =>
      print "❌ No devices found. Ensure your BLE device is in pairing mode."
  | _ :: _ =>
      print (nl +++ "🔽 Available Devices:") ;;;
      for_ (enumerate1 devices)
        (fun '(idx, device) =>
           print (str idx +++ ". 📡 " +++ or_ (name device) "Unknown"
                  +++ " - " +++ address device))
  end.

(** The fields of a [HeartRateApp] that the BLE thread reads or writes.
    [ylim] is the pair [ax.get_ylim()] returns (integral here, since only
    integers are ever set; the axes keep floats, which are exact on the
    values of a byte, all that the callback passes); [line] is the data of
    the last [ax.plot]. *)
Record HeartRateApp : Type := {
  device_address : string;
  heartRateLabel : string;
  ylim : Z * Z;
  HeartRateValues : Deque.deque Z;
  line : list Z;
  stdout : list string
}.

#[export] Instance Stdout_HeartRateApp : Stdout HeartRateApp :=
  fun s self =>
    {| device_address := device_address self;
       heartRateLabel := heartRateLabel self;
       ylim := ylim self;
       HeartRateValues := HeartRateValues self;
       line := line self;
       stdout := stdout self ++ [s] |}.

(** [HeartRateApp.__init__], up to the start of the BLE thread. *)
Definition __init__ (device_address : string) (out : list string)
  : HeartRateApp :=
  {| device_address := device_address;
     heartRateLabel := "Heart Rate: -- BPM";
     ylim := (50, 100)%Z;
     HeartRateValues := Deque.new (list_mul 0%Z 50) 50;
     line := [];
     stdout := out |}.

Definition updateHeartRate (bpm : Z) : M HeartRateApp unit :=
  fun self =>
    let values := Deque.append (HeartRateValues self) bpm in
    let (y_min, y_max) := ylim self in
    let y_max := if (bpm >? y_max)%Z then (bpm + 5)%Z else y_max in
    let y_min := if (bpm <? y_min)%Z then (bpm - 5)%Z else y_min in
    (Ok tt,
     {| device_address := device_address self;
        heartRateLabel := "Heart Rate: " +++ str bpm +++ " BPM";
        ylim := (y_min, y_max);
        HeartRateValues := values;
        line := Deque.to_list values;
        stdout := stdout self |}).

(** The closure [heartRateCallback(sender, data)] of [getHeartRate]. *)
Definition heartRateCallback (data : bytearray) : M HeartRateApp unit :=
  heartRate <- eval (getitem data 1) ;;
  print ("💓 Heart rate: " +++ str heartRate +++ " BPM") ;;;
  updateHeartRate heartRate.

(** [getHeartRate]: one run of the [async with] block; nothing catches
    what it raises. *)
Definition getHeartRate (device_address : string) (a : attempt)
  : list event * status :=
  match a with
  | connect_raises e => ([Connect device_address], Raised e)
  | is_connected_raises e => ([Connect device_address; Disconnect], Raised e)
  | not_connected => ([Connect device_address; Disconnect], Returned)
  | start_notify_raises e =>
      ([Connect device_address;
        Print ("✅ Connected to " +++ device_address +++ nl);
        Print "💓 Heart rate updates will appear in the GUI and terminal.";
        StartNotify HEART_RATE_UUID;
        Disconnect],
       Raised e)
  | notifying =>
      ([Connect device_address;
        Print ("✅ Connected to " +++ device_address +++ nl);
        Print "💓 Heart rate updates will appear in the GUI and terminal.";
        StartNotify HEART_RATE_UUID],
       Streaming)
  end.

(** What [main_menu] does at the terminal: a printed line, a prompt of
    [input], [os.system] clearing the screen, and a run of
    [start_heart_rate_gui], which returns when the window is closed.
    [input] and the window are taken to return; their own failures are
    not part of the model. *)
Inductive console : Type :=
| Printed (line : string)
| Asked (prompt : string)
| Cleared
| Launched (device_address : string).

(** How [main_menu] stands once the typed lines are used up. *)
Inductive ending : Type :=
| Exited              (* the outer loop was left *)
| Waiting             (* inside [input], nothing typed yet *)
| Failed (e : exn).   (* [asyncio.run(scanDevices())] raised *)

Definition banner : list console :=
  [Printed (nl +++ "📌 Welcome to the Heart Rate Monitor App");
   Printed "1. Scan for Heartbeat Monitoring Devices";
   Printed "2. Start Heart Rate Monitoring (GUI)";
   Printed "0. Exit";
   Asked "🔹 Enter your choice: "].

Definition address_prompt : console :=
  Asked "🔹 Enter the device address (0 to go back): ".

(** The two nested loops of [main_menu] on the lines typed. [inner] tells
    which [input] reads the next line; [discover k] is what the discovery
    of scan number [k] gives. *)
Fixpoint menu_loop (discover : nat -> result (list BLEDevice)) (scans : nat)
  (inner : bool) (inputs : list string) : list console * ending :=
  match inputs with
  | [] => (if inner then [address_prompt] else banner, Waiting)
  | typed :: rest =>
      if inner then
        if String.eqb typed "0" then
          let (t, st) := menu_loop discover scans false rest in
          (address_prompt :: t, st)
        else
          let (t, st) := menu_loop discover scans true rest in
          (address_prompt
             :: Printed ("📡 Connecting to " +++ typed +++ "..." +++ nl)
             :: Launched typed :: t,
           st)
      else if String.eqb typed "1" then
        match scanDevices (discover scans) [] with
        | (Ok _, out) =>
            let (t, st) := menu_loop discover (S scans) false rest in
            (banner ++ Cleared :: map Printed out ++ t, st)
        | (Raise e, out) => (banner ++ Cleared :: map Printed out, Failed e)
        end
      else if String.eqb typed "2" then
        let (t, st) := menu_loop discover scans true rest in
        (banner ++ Cleared :: t, st)
      else if String.eqb typed "0" then
        (banner ++ [Printed "🚪 Exiting program."], Exited)
      else
        let (t, st) := menu_loop discover scans false rest in
        (banner ++ Printed "⚠️ Invalid choice. Please enter 1, 2, or 0." :: t,
         st)
  end.

Definition main_menu (discover : nat -> result (list BLEDevice))
  (inputs : list string) : list console * ending :=
  menu_loop discover 0 false inputs.

End BPMMonitoringApp.

(** ** BPMWithGUI.py *)

Module BPMWithGUI.
Import Py Ble.

(** What [start_heart_rate_gui] creates: the label, the axes limits
    (integral, exact on the values of a byte, all that the callback
    passes), the history and the plotted line. *)
Record HeartRateFrame : Type := {
  heartRateLabel : string;
  ylim : Z * Z;
  HeartRateValues : Deque.deque Z;
  line : list Z
}.

(** The fields of a [HeartRateMonitorApp] that scanning and monitoring
    read or write. [heart_rate_frame] is [None] until
    [start_heart_rate_gui] has run, and the attributes of the frame do not
    exist before; [dialogs] are the [messagebox.showerror] calls, title
    and message. *)
Record HeartRateMonitorApp : Type := {
  device_listbox : list string;
  heart_rate_frame : option HeartRateFrame;
  dialogs : list (string * string);
  stdout : list string
}.

#[export] Instance Stdout_HeartRateMonitorApp : Stdout HeartRateMonitorApp :=
  fun s self =>
    {| device_listbox := device_listbox self;
       heart_rate_frame := heart_rate_frame self;
       dialogs := dialogs self;
       stdout := stdout self ++ [s] |}.

Definition __init__ (out : list string) : HeartRateMonitorApp :=
  {| device_listbox := [];
     heart_rate_frame := None;
     dialogs := [];
     stdout := out |}.

(** [messagebox.showerror(title, message)] *)
Definition showerror (title message : string) : M HeartRateMonitorApp unit :=
  fun self =>
    (Ok tt,
     {| device_listbox := device_listbox self;
        heart_rate_frame := heart_rate_frame self;
        dialogs := dialogs self ++ [(title, message)];
        stdout := stdout self |}).

Definition set_device_listbox (f : list string -> list string)
  : M HeartRateMonitorApp unit :=
  fun self =>
    (Ok tt,
     {| device_listbox := f (device_listbox self);
        heart_rate_frame := heart_rate_frame self;
        dialogs := dialogs self;
        stdout := stdout self |}).

(** [self.device_listbox.delete(0, tk.END)] *)
Definition listbox_delete_all : M HeartRateMonitorApp unit :=
  set_device_listbox (fun _ => []).

(** [self.device_listbox.insert(tk.END, s)] *)
Definition listbox_insert_end (s : string) : M HeartRateMonitorApp unit :=
  set_device_listbox (fun l => l ++ [s]).

(** [scan_devices], up to the start of the thread that runs
    [_scan_devices]. *)
Definition scan_devices : M HeartRateMonitorApp unit :=
  listbox_delete_all ;;;
  listbox_insert_end "Scanning...".

(** [_scan_devices]: [discover] is what
    [loop.run_until_complete(BleakScanner.discover())] gives. *)
Definition _scan_devices (discover : result (list BLEDevice))
  : M HeartRateMonitorApp unit :=
  devices <- eval discover ;;
  match devices with
  | [] =>
      showerror "Error"
        "No devices found. Ensure your BLE device is in pairing mode."
  | _ :: _ =>
      listbox_delete_all ;;;
      for_ devices
        (fun device =>
           listbox_insert_end
             (or_ (name device) "Unknown" +++ " - " +++ address device))
  end.

Definition start_heart_rate_gui : M HeartRateMonitorApp unit :=
  fun self =>
    (Ok tt,
     {| device_listbox := device_listbox self;
        heart_rate_frame :=
          Some {| heartRateLabel := "Heart Rate: -- BPM";
                  ylim := (50, 100)%Z;
                  HeartRateValues := Deque.new (list_mul 0%Z 50) 50;
                  line := [] |};
        dialogs := dialogs self;
        stdout := stdout self |}).

(** [self.device_listbox.get(i)]: the line at [i], [''] out of range. *)
Definition listbox_get (i : nat) : M HeartRateMonitorApp string :=
  fun self => (Ok (nth i (device_listbox self) EmptyString), self).

(** [connect_device], up to the start of the thread that runs
    [_connect_and_monitor]. [selection] is what
    [self.device_listbox.curselection()] gives; the result is the value
    assigned to [self.device_address], [None] when nothing is assigned. *)
Definition connect_device (selection : list nat)
  : M HeartRateMonitorApp (option string) :=
  try_except
    (match selection with
     | [] => showerror "Error" "Please select a device." ;;; ret None
     | i :: _ =>
         selected <- listbox_get i ;;
         pieces <- eval (split selected " - ") ;;
         device_address <- eval (getitem_last pieces) ;;
         listbox_delete_all ;;;
         listbox_insert_end ("Connecting to " +++ device_address +++ "...") ;;;
         start_heart_rate_gui ;;;
         ret (Some device_address)
     end)
    (fun e =>
       showerror "Connection Error" ("An error occurred: " +++ str_exn e) ;;;
       ret None).

Definition update_heart_rate (bpm : Z) : M HeartRateMonitorApp unit :=
  fun self =>
    match heart_rate_frame self with
    | None => (Raise (AttributeError "heartRateLabel"), self)
    | Some frame =>
        let values := Deque.append (HeartRateValues frame) bpm in
        let (y_min, y_max) := ylim frame in
        let y_max := if (bpm + 5 >? y_max)%Z then (bpm + 5)%Z else y_max in
        let y_min := if (bpm - 5 <? y_min)%Z then (bpm - 5)%Z else y_min in
        (Ok tt,
         {| device_listbox := device_listbox self;
            heart_rate_frame :=
              Some {| heartRateLabel := "Heart Rate: " +++ str bpm +++ " BPM";
                      ylim := (y_min, y_max);
                      HeartRateValues := values;
                      line := Deque.to_list values |};
            dialogs := dialogs self;
            stdout := stdout self |})
    end.

(** The closure [heart_rate_callback(sender, data)] of
    [connect_and_monitor]. *)
Definition heart_rate_callback (data : bytearray)
  : M HeartRateMonitorApp unit :=
  heart_rate <- eval (getitem data 1) ;;
  print ("💓 Heart rate: " +++ str heart_rate +++ " BPM") ;;;
  update_heart_rate heart_rate.

(** The [try] block of [connect_and_monitor] on one answer of the BLE
    stack: what it does, and how it ends ([Returned], [Streaming], or
    [Raised e] into the [except] clause). *)
Definition try_block (device_address : string) (a : attempt)
  : list event * status :=
  match a with
  | connect_raises e => ([Connect device_address], Raised e)
  | is_connected_raises e => ([Connect device_address; Disconnect], Raised e)
  | not_connected => ([Connect device_address; Disconnect], Returned)
  | start_notify_raises e =>
      ([Connect device_address;
        Print ("✅ Connected to " +++ device_address +++ nl);
        Print "💓 Heart rate updates will appear in the GUI and terminal.";
        StartNotify HEART_RATE_UUID;
        Disconnect],
       Raised e)
  | notifying =>
      ([Connect device_address;
        Print ("✅ Connected to " +++ device_address +++ nl);
        Print "💓 Heart rate updates will appear in the GUI and terminal.";
        StartNotify HEART_RATE_UUID],
       Streaming)
  end.

(** The [except Exception as e] clause, before it calls
    [connect_and_monitor] again. *)
Definition except_clause (e : exn) : list event :=
  [Print ("⚠️ Error: " +++ str_exn e); Sleep 5].

(** [connect_and_monitor] against the successive answers of the BLE
    stack; the recursion is the source's own. Each retry is a call awaited
    inside the [except] clause of the call before, so the calls nest and
    none returns before the session ends. [depth] is the number of nested
    calls the recursion limit of the interpreter still allows: a retry
    beyond it raises [RecursionError] in the [except] clause, out of the
    reach of every enclosing [try]. *)
Fixpoint connect_and_monitor (depth : nat) (device_address : string)
  (env : list attempt) {struct env} : list event * status :=
  match env with
  | [] => ([Connect device_address], Awaiting)
  | a :: env' =>
      match try_block device_address a with
      | (t, Raised e) =>
          if isinstance_Exception e then
            match depth with
            | O => (t ++ except_clause e, Raised RecursionError)
            | S depth' =>
                let (t', st) :=
                  connect_and_monitor depth' device_address env' in
                (t ++ except_clause e ++ t', st)
            end
          else (t, Raised e)
      | (t, st) => (t, st)
      end
  end.

End BPMWithGUI.

(** ** The Heart Rate Measurement payload, in the words of the
       specification

    Nothing below comes from the source: these are the fields the
    specification names, to compare the callbacks with. *)

Module HeartRateMeasurement.
Import Py.

(** The byte at offset [i], as an unsigned integer. *)
Definition byte_at (data : bytearray) (i : nat) : Z :=
  int_of_byte (nth i data x00).

Definition flags (data : bytearray) : Z := byte_at data 0.

(** The 16-bit little-endian value of the bytes at [i] and [i + 1]. *)
Definition little_endian_u16 (data : bytearray) (i : nat) : Z :=
  Z.lor (byte_at data i) (Z.shiftl (byte_at data (i + 1)) 8).

(** [Some (bit 2)] when bit 1 is set, [None] otherwise. *)
Definition contact_detected (flags : Z) : option bool :=
  if Z.testbit flags 1 then Some (Z.testbit flags 2) else None.

End HeartRateMeasurement.

(** ** What a callback delivers

    The sample of a notification is the value its callback prints, shows
    on the label and appends to the history. *)

Definition heartRateCallback_yields (data : Py.bytearray) (bpm : Z) : Prop :=
  forall self : BPMMonitoringApp.HeartRateApp,
    let (r, self') := BPMMonitoringApp.heartRateCallback data self in
    r = Py.Ok tt
    /\ BPMMonitoringApp.HeartRateValues self'
       = Deque.append (BPMMonitoringApp.HeartRateValues self) bpm
    /\ BPMMonitoringApp.heartRateLabel self'
       = "Heart Rate: " +++ Py.str bpm +++ " BPM"
    /\ BPMMonitoringApp.stdout self'
       = BPMMonitoringApp.stdout self
         ++ ["💓 Heart rate: " +++ Py.str bpm +++ " BPM"].

Definition heart_rate_callback_yields (data : Py.bytearray) (bpm : Z) : Prop :=
  forall (self : BPMWithGUI.HeartRateMonitorApp)
         (frame : BPMWithGUI.HeartRateFrame),
    BPMWithGUI.heart_rate_frame self = Some frame ->
    let (r, self') := BPMWithGUI.heart_rate_callback data self in
    r = Py.Ok tt
    /\ (exists frame',
          BPMWithGUI.heart_rate_frame self' = Some frame'
          /\ BPMWithGUI.HeartRateValues frame'
             = Deque.append (BPMWithGUI.HeartRateValues frame) bpm
          /\ BPMWithGUI.heartRateLabel frame'
             = "Heart Rate: " +++ Py.str bpm +++ " BPM")
    /\ BPMWithGUI.stdout self'
       = BPMWithGUI.stdout self
         ++ ["💓 Heart rate: " +++ Py.str bpm +++ " BPM"].

(** Decoding, in both programs. *)
Definition decodes_to (data : Py.bytearray) (bpm : Z) : Prop :=
  heartRateCallback_yields data bpm /\ heart_rate_callback_yields data bpm.

(** The history after the callbacks' update has run on each of [samples]. *)
Definition history_App (self : BPMMonitoringApp.HeartRateApp)
  (samples : list Z) : list Z :=
  Deque.to_list
    (BPMMonitoringApp.HeartRateValues
       (snd (for_ samples BPMMonitoringApp.updateHeartRate self))).

Definition history_GUI (self : BPMWithGUI.HeartRateMonitorApp)
  (samples : list Z) : option (list Z) :=
  option_map (fun f => Deque.to_list (BPMWithGUI.HeartRateValues f))
    (BPMWithGUI.heart_rate_frame
       (snd (for_ samples BPMWithGUI.update_heart_rate self))).

(** The last [n] elements of a list. *)
Definition lastn {A : Type} (n : nat) (l : list A) : list A :=
  skipn (length l - n) l.

(** A deque is well formed when it holds no more than [maxlen] elements. *)
Definition wf {A : Type} (d : Deque.deque A) : Prop :=
  Deque.len d <= Deque.maxlen d.

(** [1, 2, ..., n] *)
Definition upto (n : nat) : list Z := map Z.of_nat (seq 1 n).

(** ** Failed attempts of a session *)

(** The exception an answer of the BLE stack raises in the [async with]
    block, if any. *)
Definition raised_by (a : Ble.attempt) : option Py.exn :=
  match a with
  | Ble.connect_raises e => Some e
  | Ble.is_connected_raises e => Some e
  | Ble.start_notify_raises e => Some e
  | Ble.not_connected => None
  | Ble.notifying => None
  end.

(** A connect or subscribe failure: the attempt raises an [Exception]. *)
Definition is_failure (a : Ble.attempt) : bool :=
  match raised_by a with
  | Some e => Py.isinstance_Exception e
  | None => false
  end.

(** What [BPMWithGUI.connect_and_monitor] does on one failed attempt: the
    [try] block up to the exception, then the [except] clause. *)
Definition failed_attempt (device_address : string) (a : Ble.attempt)
  : list Ble.event :=
  fst (BPMWithGUI.try_block device_address a)
  ++ match raised_by a with
     | Some e => BPMWithGUI.except_clause e
     | None => []
     end.

Definition is_Connect (ev : Ble.event) : bool :=
  match ev with
  | Ble.Connect _ => true
  | _ => false
  end.

Definition is_Sleep (ev : Ble.event) : bool :=
  match ev with
  | Ble.Sleep _ => true
  | _ => false
  end.

(** The message of both programs for a scan that finds nothing. *)
Definition no_devices_found : string :=
  "No devices found. Ensure your BLE device is in pairing mode.".

(** ** Observations for the properties of the other functions *)

(** The axes limits after the update has run on each of [samples]. *)
Definition ylim_App (self : BPMMonitoringApp.HeartRateApp)
  (samples : list Z) : Z * Z :=
  BPMMonitoringApp.ylim
    (snd (for_ samples BPMMonitoringApp.updateHeartRate self)).

Definition ylim_GUI (self : BPMWithGUI.HeartRateMonitorApp)
  (samples : list Z) : option (Z * Z) :=
  option_map BPMWithGUI.ylim
    (BPMWithGUI.heart_rate_frame
       (snd (for_ samples BPMWithGUI.update_heart_rate self))).

(** The state after one call of the callback per notification, each call
    on the state the one before left, whether it returned or raised. *)
Definition notified_App (payloads : list Py.bytearray)
  (self : BPMMonitoringApp.HeartRateApp) : BPMMonitoringApp.HeartRateApp :=
  fold_left (fun s data => snd (BPMMonitoringApp.heartRateCallback data s))
    payloads self.

Definition notified_GUI (payloads : list Py.bytearray)
  (self : BPMWithGUI.HeartRateMonitorApp) : BPMWithGUI.HeartRateMonitorApp :=
  fold_left (fun s data => snd (BPMWithGUI.heart_rate_callback data s))
    payloads self.

(** A sample a callback can pass on: the value of a byte. *)
Definition is_byte (bpm : Z) : Prop := (0 <= bpm < 256)%Z.

(** Limits that contain the first window, 50 to 100, and stay within 5 of
    the values a byte can take. *)
Definition ylim_bounded (l : Z * Z) : Prop :=
  (-5 <= fst l <= 50 /\ 100 <= snd l <= 260)%Z.

(** The line a callback prints for a sample. *)
Definition heart_rate_line (bpm : Z) : string :=
  "💓 Heart rate: " +++ Py.str bpm +++ " BPM".

(** The line of a device in the list box of BPMWithGUI. *)
Definition listed (device : Ble.BLEDevice) : string :=
  Py.or_ (Ble.name device) "Unknown" +++ " - " +++ Ble.address device.

(** The line of a device in the listing of BPMMonitoringApp. *)
Definition numbered (p : Z * Ble.BLEDevice) : string :=
  Py.str (fst p) +++ ". 📡 " +++ listed (snd p).

(** [s] ends with [suffix]. *)
Fixpoint ends_with (suffix s : string) : bool :=
  String.eqb s suffix
  || match s with
     | EmptyString => false
     | String _ s' => ends_with suffix s'
     end.

(** [sep] occurs in [s]. *)
Fixpoint contains (sep s : string) : bool :=
  prefix sep s
  || match s with
     | EmptyString => false
     | String _ s' => contains sep s'
     end.

(** What [main_menu] does on an address typed in its inner loop. *)
Definition launch (typed : string) : list BPMMonitoringApp.console :=
  [BPMMonitoringApp.address_prompt;
   BPMMonitoringApp.Printed
     ("📡 Connecting to " +++ typed +++ "..." +++ Py.nl);
   BPMMonitoringApp.Launched typed].

(** The events of [main_menu] that start something: a cleared screen
    comes with a scan or with the address loop, a launch with a window. *)
Definition starts_something (ev : BPMMonitoringApp.console) : bool :=
  match ev with
  | BPMMonitoringApp.Cleared => true
  | BPMMonitoringApp.Launched _ => true
  | _ => false
  end.

(** * Properties *)

(** ** The callbacks read byte 1 *)

Section Callback.
Import Py HeartRateMeasurement.

Lemma getitem_1 (data : bytearray) :
  2 <= length data -> getitem data 1 = Ok (byte_at data 1).
Proof.
  destruct data as [|b0 [|b1 rest]]; simpl; try lia.
  intros _. reflexivity.
Qed.

Lemma getitem_1_short (data : bytearray) :
  length data < 2 -> getitem data 1 = Raise IndexError.
Proof.
  destruct data as [|b0 [|b1 rest]]; simpl; try lia; reflexivity.
Qed.

Lemma heartRateCallback_byte_1 (data : bytearray) :
  2 <= length data -> heartRateCallback_yields data (byte_at data 1).
Proof.
  intros Hlen self.
  unfold BPMMonitoringApp.heartRateCallback, bind, eval.
  rewrite (getitem_1 data Hlen).
  unfold print, put_line, BPMMonitoringApp.Stdout_HeartRateApp,
    BPMMonitoringApp.updateHeartRate; cbn [BPMMonitoringApp.ylim].
  destruct (BPMMonitoringApp.ylim self) as [y_min y_max].
  cbn. repeat split.
Qed.

Lemma heart_rate_callback_byte_1 (data : bytearray) :
  2 <= length data -> heart_rate_callback_yields data (byte_at data 1).
Proof.
  intros Hlen self frame Hframe.
  unfold BPMWithGUI.heart_rate_callback, bind, eval.
  rewrite (getitem_1 data Hlen).
  unfold print, put_line, BPMWithGUI.Stdout_HeartRateMonitorApp,
    BPMWithGUI.update_heart_rate; cbn [BPMWithGUI.heart_rate_frame].
  rewrite Hframe.
  destruct (BPMWithGUI.ylim frame) as [y_min y_max].
  cbn. split; [reflexivity|]. split; [|reflexivity].
  eexists. split; [reflexivity|]. cbn. split; reflexivity.
Qed.

Lemma decodes_to_byte_1 (data : bytearray) :
  2 <= length data -> decodes_to data (byte_at data 1).
Proof.
  intros Hlen. split.
  - now apply heartRateCallback_byte_1.
  - now apply heart_rate_callback_byte_1.
Qed.

End Callback.

(** ** Bytes and the 16-bit field *)

Section Bytes.
Import Py HeartRateMeasurement.
Local Open Scope Z_scope.

Lemma int_of_byte_range (b : byte) : 0 <= int_of_byte b < 256.
Proof.
  unfold int_of_byte. pose proof (Byte.to_N_bounded b). lia.
Qed.

Lemma byte_at_range (data : bytearray) (i : nat) : 0 <= byte_at data i < 256.
Proof. apply int_of_byte_range. Qed.

Lemma land_low_shifted (lo hi : Z) :
  0 <= lo < 256 -> Z.land lo (hi * 2 ^ 8) = 0.
Proof.
  intros Hlo. apply Z.bits_inj'. intros n Hn.
  rewrite Z.land_spec, Z.bits_0.
  destruct (Z.lt_ge_cases n 8) as [Hlt|Hge].
  - rewrite Z.mul_pow2_bits_low by lia. apply andb_false_r.
  - assert (Z.testbit lo n = false) as ->; [|reflexivity].
    destruct (Z.eq_dec lo 0) as [->|Hnz]; [apply Z.bits_0|].
    apply Z.bits_above_log2; [lia|].
    assert (Z.log2 lo < 8); [|lia].
    apply Z.log2_lt_pow2; simpl; lia.
Qed.

Lemma lor_low_shifted (lo hi : Z) :
  0 <= lo < 256 -> Z.lor lo (Z.shiftl hi 8) = lo + 256 * hi.
Proof.
  intros Hlo. rewrite Z.shiftl_mul_pow2 by lia.
  pose proof (land_low_shifted lo hi Hlo) as Hland.
  rewrite <- (Z.lxor_lor _ _ Hland), <- (Z.add_nocarry_lxor _ _ Hland).
  change (2 ^ 8) with 256. lia.
Qed.

Lemma little_endian_u16_eq (data : bytearray) (i : nat) :
  little_endian_u16 data i = byte_at data i + 256 * byte_at data (i + 1).
Proof.
  unfold little_endian_u16. apply lor_low_shifted, byte_at_range.
Qed.

End Bytes.

(** ** Claims on decoding *)

Section Decoding.
Import Py HeartRateMeasurement.

(** C1, as amended. For every payload of at least 3 bytes whose flags byte
    has bit 0 set, each callback yields the unsigned byte at offset 1
    alone. That is the low byte of the 16-bit little-endian value of bytes 1
    and 2, and equals this value exactly when byte 2 is zero. *)
Theorem C1_bpm_is_low_byte_of_u16 (data : bytearray) :
  3 <= length data ->
  Z.testbit (flags data) 0 = true ->
  decodes_to data (byte_at data 1)
  /\ byte_at data 1 = (little_endian_u16 data 1 mod 256)%Z
  /\ (byte_at data 1 = little_endian_u16 data 1 <-> byte_at data 2 = 0%Z).
Proof.
  intros Hlen _.
  split; [apply decodes_to_byte_1; lia|].
  rewrite little_endian_u16_eq. change (1 + 1) with 2.
  pose proof (byte_at_range data 1) as H1.
  pose proof (byte_at_range data 2) as H2.
  split.
  - rewrite (Z.mul_comm 256), Z.mod_add by lia.
    symmetry. apply Z.mod_small. lia.
  - lia.
Qed.

Lemma C1_bpm_is_low_byte_of_u16_witness :
  decodes_to [x01; x28; x00] 40
  /\ 40%Z = (little_endian_u16 [x01; x28; x00] 1 mod 256)%Z
  /\ (40%Z = little_endian_u16 [x01; x28; x00] 1 <-> 0%Z = 0%Z).
Proof.
  apply (C1_bpm_is_low_byte_of_u16 [x01; x28; x00]).
  - simpl. lia.
  - reflexivity.
Defined.

(** C1 as stated fails on the payload [01 28 01]: bit 0 of the flags is
    set, the 16-bit value of bytes 1 and 2 is 296, and both callbacks yield
    40, not 296. *)
Lemma C1_counterexample :
  let data := [x01; x28; x01] in
  3 <= length data
  /\ Z.testbit (flags data) 0 = true
  /\ little_endian_u16 data 1 = 296%Z
  /\ decodes_to data 40
  /\ ~ heartRateCallback_yields data (little_endian_u16 data 1)
  /\ ~ heart_rate_callback_yields data (little_endian_u16 data 1).
Proof.
  cbv zeta. split; [simpl; lia|]. split; [reflexivity|].
  split; [reflexivity|].
  split; [apply (decodes_to_byte_1 [x01; x28; x01]); simpl; lia|].
  split.
  - intros H. specialize (H (BPMMonitoringApp.__init__ "" [])).
    vm_compute in H. destruct H as (_ & _ & _ & H). discriminate H.
  - intros H.
    specialize
      (H (snd (BPMWithGUI.start_heart_rate_gui (BPMWithGUI.__init__ [])))
         _ eq_refl).
    vm_compute in H. destruct H as (_ & _ & H). discriminate H.
Qed.

(** C2. For every 2-byte payload whose flags byte has bit 0 clear, each
    callback yields the unsigned byte at offset 1. *)
Theorem C2_bpm_is_byte_1 (data : bytearray) :
  length data = 2 ->
  Z.testbit (flags data) 0 = false ->
  decodes_to data (byte_at data 1).
Proof.
  intros Hlen _. apply decodes_to_byte_1. lia.
Qed.

Lemma C2_bpm_is_byte_1_witness : decodes_to [x00; x3c] 60.
Proof.
  apply (C2_bpm_is_byte_1 [x00; x3c]); reflexivity.
Defined.

(** C3, as amended. For every payload of fewer than 2 bytes, decoding
    fails by an exception that nothing in the callback catches: [data[1]]
    raises [IndexError], which leaves each callback; no sample is printed,
    shown or appended, and the state is left as it was. *)
Theorem C3_short_payload_fails (data : bytearray) :
  length data < 2 ->
  (forall self, BPMMonitoringApp.heartRateCallback data self
                = (Raise IndexError, self))
  /\ (forall self, BPMWithGUI.heart_rate_callback data self
                   = (Raise IndexError, self)).
Proof.
  intros Hlen.
  split; intros self.
  - unfold BPMMonitoringApp.heartRateCallback, bind, eval.
    now rewrite (getitem_1_short data Hlen).
  - unfold BPMWithGUI.heart_rate_callback, bind, eval.
    now rewrite (getitem_1_short data Hlen).
Qed.

Lemma C3_short_payload_fails_witness :
  (forall self, BPMMonitoringApp.heartRateCallback [x00] self
                = (Raise IndexError, self))
  /\ (forall self, BPMWithGUI.heart_rate_callback [x00] self
                   = (Raise IndexError, self)).
Proof.
  apply (C3_short_payload_fails [x00]). simpl. lia.
Defined.

(** C3 as stated fails on the 1-byte payload [00]: neither callback ends
    with an error of its own that it has handled. Each one is left by the
    [IndexError] of [data[1]], a built-in exception and no decoding error,
    so from no state does a callback return. *)
Lemma C3_counterexample :
  let data := [x00] in
  length data < 2
  /\ (forall self,
        fst (BPMMonitoringApp.heartRateCallback data self) = Raise IndexError)
  /\ (forall self,
        fst (BPMWithGUI.heart_rate_callback data self) = Raise IndexError)
  /\ IndexError = Exception "IndexError" "bytearray index out of range"
  /\ ~ (exists self self',
          BPMMonitoringApp.heartRateCallback data self = (Ok tt, self'))
  /\ ~ (exists self self',
          BPMWithGUI.heart_rate_callback data self = (Ok tt, self')).
Proof.
  cbv zeta. split; [simpl; lia|].
  split; [reflexivity|]. split; [reflexivity|]. split; [reflexivity|].
  split; intros (self & self' & H); discriminate H.
Qed.

Lemma callbacks_ignore_byte_0 (b b' : byte) (rest : bytearray) :
  (forall self, BPMMonitoringApp.heartRateCallback (b :: rest) self
                = BPMMonitoringApp.heartRateCallback (b' :: rest) self)
  /\ (forall self, BPMWithGUI.heart_rate_callback (b :: rest) self
                   = BPMWithGUI.heart_rate_callback (b' :: rest) self).
Proof.
  split; intros self; reflexivity.
Qed.

(** C4, as amended. The sample a callback produces is the byte at offset 1
    and nothing else: the flags byte, bits 1 and 2 included, has no effect
    on what the callback does, so two payloads that differ in byte 0 only
    are handled alike. *)
Theorem C4_flags_are_ignored (byte0 byte0' : byte) (rest : bytearray) :
  (forall self, BPMMonitoringApp.heartRateCallback (byte0 :: rest) self
                = BPMMonitoringApp.heartRateCallback (byte0' :: rest) self)
  /\ (forall self, BPMWithGUI.heart_rate_callback (byte0 :: rest) self
                   = BPMWithGUI.heart_rate_callback (byte0' :: rest) self).
Proof.
  apply callbacks_ignore_byte_0.
Qed.

(** C4 as stated fails: no function of what a callback leaves behind gives
    [contact_detected] of the flags. The payloads [02 3c] and [06 3c] are
    both decoded (to 60) with bit 1 set, bit 2 differs, and the callbacks
    end in the same state on both. *)
Lemma C4_counterexample :
  contact_detected (flags [x02; x3c]) = Some false
  /\ contact_detected (flags [x06; x3c]) = Some true
  /\ decodes_to [x02; x3c] 60
  /\ decodes_to [x06; x3c] 60
  /\ ~ (exists field : result unit * BPMMonitoringApp.HeartRateApp
                       -> option bool,
          forall data self,
            2 <= length data ->
            field (BPMMonitoringApp.heartRateCallback data self)
            = contact_detected (flags data))
  /\ ~ (exists field : result unit * BPMWithGUI.HeartRateMonitorApp
                       -> option bool,
          forall data self,
            2 <= length data ->
            field (BPMWithGUI.heart_rate_callback data self)
            = contact_detected (flags data)).
Proof.
  split; [reflexivity|]. split; [reflexivity|].
  split; [apply (decodes_to_byte_1 [x02; x3c]); simpl; lia|].
  split; [apply (decodes_to_byte_1 [x06; x3c]); simpl; lia|].
  split; intros [field H].
  - pose (self := BPMMonitoringApp.__init__ "" []).
    assert (H2 := H [x02; x3c] self ltac:(simpl; lia)).
    assert (H6 := H [x06; x3c] self ltac:(simpl; lia)).
    rewrite (proj1 (callbacks_ignore_byte_0 x02 x06 [x3c])), H6 in H2.
    discriminate H2.
  - pose (self := snd (BPMWithGUI.start_heart_rate_gui
                         (BPMWithGUI.__init__ []))).
    assert (H2 := H [x02; x3c] self ltac:(simpl; lia)).
    assert (H6 := H [x06; x3c] self ltac:(simpl; lia)).
    rewrite (proj2 (callbacks_ignore_byte_0 x02 x06 [x3c])), H6 in H2.
    discriminate H2.
Qed.

End Decoding.

(** ** The bounded deque *)

Section DequeFacts.
Context {A : Type}.
Implicit Types (d : Deque.deque A) (x : A) (l xs : list A).

Lemma lastn_length n l : length (lastn n l) = Nat.min n (length l).
Proof. unfold lastn. rewrite length_skipn. lia. Qed.

Lemma lastn_all n l : length l <= n -> lastn n l = l.
Proof.
  intros H. unfold lastn. replace (length l - n) with 0 by lia. reflexivity.
Qed.

Lemma lastn_app_lastn n l xs : lastn n (lastn n l ++ xs) = lastn n (l ++ xs).
Proof.
  destruct (Nat.le_gt_cases (length l) n) as [Hle|Hgt].
  - now rewrite (lastn_all n l Hle).
  - unfold lastn at 1 3. rewrite !length_app, lastn_length, !skipn_app.
    unfold lastn. rewrite length_skipn.
    rewrite skipn_skipn.
    replace (Nat.min n (length l) + length xs - n + (length l - n))
      with (length l + length xs - n) by lia.
    f_equal. f_equal. lia.
Qed.

Lemma tl_skipn l : tl l = skipn 1 l.
Proof. destruct l; reflexivity. Qed.

Lemma maxlen_append d x : Deque.maxlen (Deque.append d x) = Deque.maxlen d.
Proof. reflexivity. Qed.

Lemma maxlen_extend xs : forall d,
  Deque.maxlen (Deque.extend d xs) = Deque.maxlen d.
Proof.
  induction xs as [|x xs IH]; intros d; simpl; [reflexivity|].
  now rewrite IH.
Qed.

Lemma items_append d x :
  wf d ->
  Deque.items (Deque.append d x)
  = lastn (Deque.maxlen d) (Deque.items d ++ [x]).
Proof.
  unfold wf, Deque.len, Deque.append, lastn. intros Hwf. cbn [Deque.items].
  rewrite length_app. cbn [length].
  destruct (Nat.ltb_spec (Deque.maxlen d) (length (Deque.items d) + 1))
    as [Hlt|Hge].
  - replace (length (Deque.items d) + 1 - Deque.maxlen d) with 1 by lia.
    apply tl_skipn.
  - replace (length (Deque.items d) + 1 - Deque.maxlen d) with 0 by lia.
    reflexivity.
Qed.

Lemma wf_append d x : wf d -> wf (Deque.append d x).
Proof.
  intros Hwf. unfold wf, Deque.len. rewrite (items_append d x Hwf).
  rewrite lastn_length, maxlen_append. lia.
Qed.

Lemma wf_extend xs : forall d, wf d -> wf (Deque.extend d xs).
Proof.
  induction xs as [|x xs IH]; intros d Hwf; simpl; [assumption|].
  apply IH, wf_append, Hwf.
Qed.

Lemma wf_empty n : wf (Deque.empty (A := A) n).
Proof. unfold wf, Deque.len. simpl. lia. Qed.

Lemma wf_new l n : wf (Deque.new l n).
Proof. apply wf_extend, wf_empty. Qed.

Lemma items_extend xs : forall d,
  wf d ->
  Deque.items (Deque.extend d xs)
  = lastn (Deque.maxlen d) (Deque.items d ++ xs).
Proof.
  induction xs as [|x xs IH]; intros d Hwf; simpl.
  - rewrite app_nil_r. symmetry. apply lastn_all, Hwf.
  - change (fold_left Deque.append xs (Deque.append d x))
      with (Deque.extend (Deque.append d x) xs).
    rewrite (IH _ (wf_append d x Hwf)), maxlen_append.
    rewrite (items_append d x Hwf), lastn_app_lastn, <- app_assoc.
    reflexivity.
Qed.

Lemma items_new l n : Deque.items (Deque.new l n) = lastn n l.
Proof.
  unfold Deque.new. now rewrite (items_extend l _ (wf_empty n)).
Qed.

Lemma maxlen_new l n : Deque.maxlen (Deque.new l n) = n.
Proof. unfold Deque.new. now rewrite maxlen_extend. Qed.

(** After the constructor and any appends: the last [n] of everything put
    in. *)
Lemma items_new_extend l n xs :
  Deque.items (Deque.extend (Deque.new l n) xs) = lastn n (l ++ xs).
Proof.
  rewrite (items_extend xs _ (wf_new l n)), maxlen_new, items_new.
  apply lastn_app_lastn.
Qed.

End DequeFacts.

(** ** The history of the two programs *)

Section History.
Import Py.

Lemma updateHeartRate_ok bpm self :
  fst (BPMMonitoringApp.updateHeartRate bpm self) = Ok tt
  /\ BPMMonitoringApp.HeartRateValues
       (snd (BPMMonitoringApp.updateHeartRate bpm self))
     = Deque.append (BPMMonitoringApp.HeartRateValues self) bpm.
Proof.
  unfold BPMMonitoringApp.updateHeartRate.
  destruct (BPMMonitoringApp.ylim self) as [y_min y_max]. split; reflexivity.
Qed.

Lemma for_cons_ok {S : Type} (body : Z -> M S unit) x xs self :
  fst (body x self) = Ok tt ->
  for_ (x :: xs) body self = for_ xs body (snd (body x self)).
Proof.
  intros Hok. cbn [for_]. unfold bind.
  destruct (body x self) as [r self']. simpl in *. now subst r.
Qed.

Lemma for_updateHeartRate (samples : list Z) :
  forall self,
    fst (for_ samples BPMMonitoringApp.updateHeartRate self) = Ok tt
    /\ BPMMonitoringApp.HeartRateValues
         (snd (for_ samples BPMMonitoringApp.updateHeartRate self))
       = Deque.extend (BPMMonitoringApp.HeartRateValues self) samples.
Proof.
  induction samples as [|bpm samples IH]; intros self; [split; reflexivity|].
  destruct (updateHeartRate_ok bpm self) as [Hok Hv].
  rewrite (for_cons_ok _ _ _ _ Hok).
  destruct (IH (snd (BPMMonitoringApp.updateHeartRate bpm self))) as [Hr Hvs].
  split; [exact Hr|]. rewrite Hvs, Hv. reflexivity.
Qed.

Lemma history_App_extend self samples :
  history_App self samples
  = Deque.items (Deque.extend (BPMMonitoringApp.HeartRateValues self) samples).
Proof.
  unfold history_App, Deque.to_list.
  now rewrite (proj2 (for_updateHeartRate samples self)).
Qed.

Lemma update_heart_rate_ok bpm self frame :
  BPMWithGUI.heart_rate_frame self = Some frame ->
  fst (BPMWithGUI.update_heart_rate bpm self) = Ok tt
  /\ exists frame',
       BPMWithGUI.heart_rate_frame
         (snd (BPMWithGUI.update_heart_rate bpm self)) = Some frame'
       /\ BPMWithGUI.HeartRateValues frame'
          = Deque.append (BPMWithGUI.HeartRateValues frame) bpm.
Proof.
  intros Hframe. unfold BPMWithGUI.update_heart_rate. rewrite Hframe.
  destruct (BPMWithGUI.ylim frame) as [y_min y_max].
  split; [reflexivity|]. eexists. split; reflexivity.
Qed.

Lemma for_update_heart_rate (samples : list Z) :
  forall self frame,
    BPMWithGUI.heart_rate_frame self = Some frame ->
    fst (for_ samples BPMWithGUI.update_heart_rate self) = Ok tt
    /\ exists frame',
         BPMWithGUI.heart_rate_frame
           (snd (for_ samples BPMWithGUI.update_heart_rate self)) = Some frame'
         /\ BPMWithGUI.HeartRateValues frame'
            = Deque.extend (BPMWithGUI.HeartRateValues frame) samples.
Proof.
  induction samples as [|bpm samples IH]; intros self frame Hframe.
  - split; [reflexivity|]. exists frame. split; [exact Hframe|reflexivity].
  - destruct (update_heart_rate_ok bpm self frame Hframe)
      as (Hok & frame1 & Hf1 & Hv1).
    rewrite (for_cons_ok _ _ _ _ Hok).
    destruct (IH _ _ Hf1) as (Hr & frame' & Hf & Hv).
    split; [exact Hr|]. exists frame'. split; [exact Hf|].
    rewrite Hv, Hv1. reflexivity.
Qed.

Lemma history_GUI_extend self frame samples :
  BPMWithGUI.heart_rate_frame self = Some frame ->
  history_GUI self samples
  = Some (Deque.items
            (Deque.extend (BPMWithGUI.HeartRateValues frame) samples)).
Proof.
  intros Hframe. unfold history_GUI.
  destruct (for_update_heart_rate samples self frame Hframe)
    as (_ & frame' & -> & Hv).
  simpl. unfold Deque.to_list. now rewrite Hv.
Qed.

End History.

(** ** Claims on the history *)

Section Buffer.
Import Py.

Lemma lastn_app_long {A : Type} (n : nat) (l xs : list A) :
  n <= length xs -> lastn n (l ++ xs) = lastn n xs.
Proof.
  intros H. unfold lastn. rewrite length_app, skipn_app.
  rewrite (skipn_all2 l) by lia. simpl. f_equal. lia.
Qed.

Lemma skipn_repeat {A : Type} (x : A) (n m : nat) :
  n <= m -> skipn n (repeat x m) = repeat x (m - n).
Proof.
  intros H. replace m with (n + (m - n)) at 1 by lia.
  rewrite repeat_app, skipn_app, repeat_length, Nat.sub_diag.
  rewrite (skipn_all2 (repeat x n)) by (rewrite repeat_length; lia).
  reflexivity.
Qed.

Lemma history_App_init addr out samples :
  history_App (BPMMonitoringApp.__init__ addr out) samples
  = lastn 50 (repeat 0%Z 50 ++ samples).
Proof.
  rewrite history_App_extend. apply (items_new_extend (repeat 0%Z 50) 50).
Qed.

Lemma history_GUI_start self samples :
  history_GUI (snd (BPMWithGUI.start_heart_rate_gui self)) samples
  = Some (lastn 50 (repeat 0%Z 50 ++ samples)).
Proof.
  rewrite (history_GUI_extend (snd (BPMWithGUI.start_heart_rate_gui self))
             _ samples eq_refl).
  apply f_equal, (items_new_extend (repeat 0%Z 50) 50).
Qed.

Lemma lastn_50_length (samples : list Z) :
  length (lastn 50 (repeat 0%Z 50 ++ samples)) = 50.
Proof.
  rewrite lastn_length, length_app, repeat_length. lia.
Qed.

Lemma lastn_50_zeros (samples : list Z) :
  length samples <= 50 ->
  lastn 50 (repeat 0%Z 50 ++ samples)
  = repeat 0%Z (50 - length samples) ++ samples.
Proof.
  intros H. unfold lastn. rewrite length_app, repeat_length, skipn_app.
  rewrite repeat_length.
  replace (50 + length samples - 50) with (length samples) by lia.
  rewrite (skipn_repeat 0%Z _ 50 H).
  replace (length samples - 50) with 0 by lia. reflexivity.
Qed.

Lemma lastn_skipn {A : Type} (n k : nat) (xs : list A) :
  length xs = n + k -> lastn n xs = skipn k xs.
Proof. intros H. unfold lastn. f_equal. lia. Qed.

(** C5. For every capacity [N] and every [N + k] samples appended to a
    deque of that capacity, whatever it was built from, the snapshot has
    length [min (N + k) N] and is the last [N] samples in append order (the
    samples without their first [k]). So it is for the history of either
    program, of capacity 50; appending 1, ..., 55 leaves 6, ..., 55. *)
Theorem C5_snapshot_is_last_N :
  (forall (A : Type) (N k : nat) (iterable samples : list A),
      length samples = N + k ->
      let d := Deque.extend (Deque.new iterable N) samples in
      Deque.len d = Nat.min (N + k) N
      /\ Deque.to_list d = lastn N samples
      /\ Deque.to_list d = skipn k samples)
  /\ (forall addr out (k : nat) (samples : list Z),
        length samples = 50 + k ->
        history_App (BPMMonitoringApp.__init__ addr out) samples
        = skipn k samples)
  /\ (forall self (k : nat) (samples : list Z),
        length samples = 50 + k ->
        history_GUI (snd (BPMWithGUI.start_heart_rate_gui self)) samples
        = Some (skipn k samples))
  /\ (forall addr out,
        history_App (BPMMonitoringApp.__init__ addr out) (upto 55)
        = map Z.of_nat (seq 6 50))
  /\ (forall self,
        history_GUI (snd (BPMWithGUI.start_heart_rate_gui self)) (upto 55)
        = Some (map Z.of_nat (seq 6 50))).
Proof.
  assert (Hgen : forall (A : Type) (N k : nat) (iterable samples : list A),
             length samples = N + k ->
             Deque.items (Deque.extend (Deque.new iterable N) samples)
             = skipn k samples).
  { intros A N k iterable samples Hlen.
    rewrite items_new_extend, lastn_app_long by lia.
    now apply lastn_skipn. }
  split; [|split; [|split; [|split]]].
  - intros A N k iterable samples Hlen d. subst d.
    unfold Deque.len, Deque.to_list.
    rewrite (Hgen A N k iterable samples Hlen).
    rewrite length_skipn, (lastn_skipn N k samples Hlen).
    split; [lia|split; reflexivity].
  - intros addr out k samples Hlen.
    rewrite history_App_extend. apply (Hgen Z 50 k _ samples Hlen).
  - intros self k samples Hlen.
    rewrite (history_GUI_extend (snd (BPMWithGUI.start_heart_rate_gui self))
               _ samples eq_refl).
    apply f_equal, (Hgen Z 50 k _ samples Hlen).
  - intros addr out.
    rewrite history_App_extend. apply (Hgen Z 50 5 _ (upto 55) eq_refl).
  - intros self.
    rewrite (history_GUI_extend (snd (BPMWithGUI.start_heart_rate_gui self))
               _ (upto 55) eq_refl).
    apply f_equal, (Hgen Z 50 5 _ (upto 55) eq_refl).
Qed.

Lemma C5_snapshot_is_last_N_witness :
  let d := Deque.extend (Deque.new [0; 0]%Z 2) [1; 2; 3]%Z in
  Deque.len d = Nat.min (2 + 1) 2
  /\ Deque.to_list d = lastn 2 [1; 2; 3]%Z
  /\ Deque.to_list d = skipn 1 [1; 2; 3]%Z.
Proof.
  apply (proj1 C5_snapshot_is_last_N Z 2 1 [0; 0]%Z [1; 2; 3]%Z).
  reflexivity.
Defined.

(** C6. Whatever a deque of capacity [N] is built from and whatever is
    appended to it, its length never exceeds [N]. An append at capacity
    evicts the oldest element and keeps the others in order, an append
    below capacity evicts nothing, and nothing else evicts: on a
    well-formed deque an append keeps every element exactly when the deque
    was below capacity. The history of either program never holds more
    than 50 samples. *)
Theorem C6_length_bound_and_fifo_eviction :
  (forall (A : Type) (N : nat) (iterable samples : list A),
      Deque.len (Deque.extend (Deque.new iterable N) samples) <= N)
  /\ (forall (A : Type) (d : Deque.deque A) (x oldest : A) (rest : list A),
        Deque.len d = Deque.maxlen d ->
        Deque.to_list d = oldest :: rest ->
        Deque.to_list (Deque.append d x) = rest ++ [x])
  /\ (forall (A : Type) (d : Deque.deque A) (x : A),
        Deque.len d < Deque.maxlen d ->
        Deque.to_list (Deque.append d x) = Deque.to_list d ++ [x])
  /\ (forall (A : Type) (d : Deque.deque A) (x : A),
        wf d ->
        (Deque.to_list (Deque.append d x) = Deque.to_list d ++ [x]
         <-> Deque.len d < Deque.maxlen d))
  /\ (forall addr out samples,
        length (history_App (BPMMonitoringApp.__init__ addr out) samples)
        <= 50)
  /\ (forall self samples,
        exists h,
          history_GUI (snd (BPMWithGUI.start_heart_rate_gui self)) samples
          = Some h
          /\ length h <= 50).
Proof.
  assert (Hbelow : forall (A : Type) (d : Deque.deque A) (x : A),
             Deque.len d < Deque.maxlen d ->
             Deque.to_list (Deque.append d x) = Deque.to_list d ++ [x]).
  { intros A d x Hlt. unfold Deque.to_list, Deque.append, Deque.len in *.
    cbn [Deque.items]. rewrite length_app. cbn [length].
    destruct (Nat.ltb_spec (Deque.maxlen d) (length (Deque.items d) + 1));
      [lia|reflexivity]. }
  assert (Hfull : forall (A : Type) (d : Deque.deque A) (x : A),
             Deque.len d = Deque.maxlen d ->
             Deque.to_list (Deque.append d x) = tl (Deque.to_list d ++ [x])).
  { intros A d x Heq. unfold Deque.to_list, Deque.append, Deque.len in *.
    cbn [Deque.items]. rewrite length_app. cbn [length].
    destruct (Nat.ltb_spec (Deque.maxlen d) (length (Deque.items d) + 1));
      [reflexivity|lia]. }
  split; [|split; [|split; [|split; [|split]]]].
  - intros A N iterable samples.
    pose proof (wf_extend samples _ (wf_new iterable N)) as Hwf.
    unfold wf in Hwf. now rewrite maxlen_extend, maxlen_new in Hwf.
  - intros A d x oldest rest Heq Hitems.
    rewrite (Hfull A d x Heq), Hitems. reflexivity.
  - exact Hbelow.
  - intros A d x Hwf. split.
    + intros Hkeep.
      destruct (Nat.lt_ge_cases (Deque.len d) (Deque.maxlen d)) as [Hlt|Hge];
        [exact Hlt|].
      assert (Heq : Deque.len d = Deque.maxlen d) by (unfold wf in Hwf; lia).
      rewrite (Hfull A d x Heq) in Hkeep.
      apply (f_equal (@length A)) in Hkeep.
      rewrite tl_skipn, length_skipn, length_app in Hkeep.
      simpl in Hkeep. lia.
    + apply Hbelow.
  - intros addr out samples. rewrite history_App_init, lastn_50_length. lia.
  - intros self samples. rewrite history_GUI_start.
    eexists. split; [reflexivity|]. rewrite lastn_50_length. lia.
Qed.

Lemma C6_length_bound_and_fifo_eviction_witness :
  Deque.to_list (Deque.append (Deque.mk [1; 2; 3]%Z 3) 4%Z) = [2; 3]%Z ++ [4%Z]
  /\ Deque.to_list (Deque.append (Deque.mk [1; 2]%Z 3) 3%Z)
     = Deque.to_list (Deque.mk [1; 2]%Z 3) ++ [3%Z].
Proof.
  split.
  - apply (proj1 (proj2 C6_length_bound_and_fifo_eviction)
             Z (Deque.mk [1; 2; 3]%Z 3) 4%Z 1%Z [2; 3]%Z); reflexivity.
  - apply (proj1 (proj2 (proj2 C6_length_bound_and_fifo_eviction))
             Z (Deque.mk [1; 2]%Z 3) 3%Z).
    unfold Deque.len. simpl. lia.
Defined.

(** C10. The history of either program is built with 50 zeros. Whatever
    has been appended since, none or any number of samples, a snapshot has
    length exactly 50; after at most 50 appends it is the zeros not yet
    pushed out followed by the samples. *)
Theorem C10_history_prefilled_with_zeros :
  (forall addr out,
      BPMMonitoringApp.HeartRateValues (BPMMonitoringApp.__init__ addr out)
      = Deque.mk (repeat 0%Z 50) 50)
  /\ (forall addr out samples,
        let h := history_App (BPMMonitoringApp.__init__ addr out) samples in
        length h = 50
        /\ (length samples <= 50 ->
            h = repeat 0%Z (50 - length samples) ++ samples))
  /\ (forall self samples,
        exists h,
          history_GUI (snd (BPMWithGUI.start_heart_rate_gui self)) samples
          = Some h
          /\ length h = 50
          /\ (length samples <= 50 ->
              h = repeat 0%Z (50 - length samples) ++ samples)).
Proof.
  split; [|split].
  - intros addr out. reflexivity.
  - intros addr out samples h. subst h. rewrite history_App_init.
    split; [apply lastn_50_length|apply lastn_50_zeros].
  - intros self samples. rewrite history_GUI_start.
    eexists. split; [reflexivity|].
    split; [apply lastn_50_length|apply lastn_50_zeros].
Qed.

Lemma C10_history_prefilled_with_zeros_witness :
  let h := history_App (BPMMonitoringApp.__init__ "AA:BB" []) [60; 61; 40]%Z in
  length h = 50 /\ h = repeat 0%Z 47 ++ [60; 61; 40]%Z.
Proof.
  pose proof (proj1 (proj2 C10_history_prefilled_with_zeros)
                "AA:BB"%string [] [60; 61; 40]%Z) as [Hlen Hzeros].
  split; [exact Hlen|].
  apply Hzeros. simpl. lia.
Defined.

End Buffer.

(** ** Scanning *)

Section Scan.
Import Py Ble.

(** C9, as amended. When the discovery completes with no peripheral,
    neither scan raises and both return [None] with no device listed, and
    both tell the operator: [_scan_devices] of BPMWithGUI opens the error
    dialog "No devices found. Ensure your BLE device is in pairing mode."
    and leaves the list box as it was, [scanDevices] of BPMMonitoringApp
    prints that message. *)
Theorem C9_empty_scan_is_reported :
  (forall self,
      let (r, self') := BPMWithGUI._scan_devices (Ok []) self in
      r = Ok tt
      /\ BPMWithGUI.dialogs self'
         = BPMWithGUI.dialogs self
           ++ [("Error"%string, no_devices_found)]
      /\ BPMWithGUI.device_listbox self' = BPMWithGUI.device_listbox self
      /\ BPMWithGUI.heart_rate_frame self' = BPMWithGUI.heart_rate_frame self
      /\ BPMWithGUI.stdout self' = BPMWithGUI.stdout self)
  /\ (forall out,
        BPMMonitoringApp.scanDevices (Ok []) out
        = (Ok tt,
           out ++ ["🔍 Scanning for devices..."%string]
               ++ [("❌ " +++ no_devices_found)%string])).
Proof.
  split.
  - intros self. cbn. repeat split.
  - intros out.
    unfold BPMMonitoringApp.scanDevices, bind, eval, print, put_line,
      Stdout_lines.
    now rewrite <- app_assoc.
Qed.

(** C9 as stated fails in BPMWithGUI: after the Scan button, a discovery
    that finds nothing ends with an error dialog open and the list box
    still showing "Scanning...". *)
Lemma C9_counterexample :
  let self := snd (BPMWithGUI.scan_devices (BPMWithGUI.__init__ [])) in
  let self' := snd (BPMWithGUI._scan_devices (Ok []) self) in
  BPMWithGUI.dialogs self = []
  /\ BPMWithGUI.dialogs self'
     = [("Error"%string, no_devices_found)]
  /\ BPMWithGUI.dialogs self' <> []
  /\ BPMWithGUI.device_listbox self' = ["Scanning..."%string].
Proof.
  cbv zeta. split; [reflexivity|]. split; [reflexivity|].
  split; [discriminate|reflexivity].
Qed.

(** A scan that finds peripherals lists them, one line each. *)
Example scan_two_devices :
  let found := [ {| name := Some "HRM-1"%string; address := "AA:BB"%string |};
                 {| name := None; address := "CC:DD"%string |} ] in
  BPMWithGUI.device_listbox
    (snd (BPMWithGUI._scan_devices (Ok found)
            (snd (BPMWithGUI.scan_devices (BPMWithGUI.__init__ [])))))
  = ["HRM-1 - AA:BB"%string; "Unknown - CC:DD"%string]
  /\ snd (BPMMonitoringApp.scanDevices (Ok found) [])
     = ["🔍 Scanning for devices..."%string;
        (nl +++ "🔽 Available Devices:")%string;
        "1. 📡 HRM-1 - AA:BB"%string;
        "2. 📡 Unknown - CC:DD"%string].
Proof. split; reflexivity. Qed.

End Scan.

(** ** The session *)

Section Session.
Import Py Ble.

Lemma try_block_failure addr a :
  is_failure a = true ->
  exists e,
    raised_by a = Some e
    /\ isinstance_Exception e = true
    /\ snd (BPMWithGUI.try_block addr a) = Raised e.
Proof.
  unfold is_failure. destruct a as [e|e| |e|]; simpl; try discriminate;
    intros H; exists e; auto.
Qed.

Lemma connect_and_monitor_failure depth addr a env :
  is_failure a = true ->
  BPMWithGUI.connect_and_monitor (S depth) addr (a :: env)
  = (failed_attempt addr a
       ++ fst (BPMWithGUI.connect_and_monitor depth addr env),
     snd (BPMWithGUI.connect_and_monitor depth addr env)).
Proof.
  intros Hf. destruct (try_block_failure addr a Hf) as (e & Hr & He & Hst).
  unfold failed_attempt. rewrite Hr. cbn [BPMWithGUI.connect_and_monitor].
  destruct (BPMWithGUI.try_block addr a) as [t st]. simpl in Hst. subst st.
  rewrite He.
  destruct (BPMWithGUI.connect_and_monitor depth addr env) as [t' st'].
  simpl. now rewrite <- app_assoc.
Qed.

(** In BPMWithGUI every failed attempt, as many in a row as the recursion
    limit allows nested calls, is followed by the error line, a 5-second
    sleep and a new attempt; the session goes on with the next answer, one
    call deeper per failure. *)
Lemma connect_and_monitor_retries addr failures : forall depth env,
  forallb is_failure failures = true ->
  length failures <= depth ->
  BPMWithGUI.connect_and_monitor depth addr (failures ++ env)
  = (flat_map (failed_attempt addr) failures
       ++ fst (BPMWithGUI.connect_and_monitor (depth - length failures)
                 addr env),
     snd (BPMWithGUI.connect_and_monitor (depth - length failures)
            addr env)).
Proof.
  induction failures as [|a failures IH]; intros depth env Hall Hdepth.
  - simpl. rewrite Nat.sub_0_r.
    now destruct (BPMWithGUI.connect_and_monitor depth addr env).
  - simpl in Hall. apply andb_true_iff in Hall as [Ha Hall].
    destruct depth as [|depth]; [simpl in Hdepth; lia|].
    simpl in Hdepth.
    rewrite <- app_comm_cons, (connect_and_monitor_failure depth addr a _ Ha).
    rewrite (IH depth env Hall) by lia. simpl. now rewrite <- app_assoc.
Qed.


Lemma failed_attempt_sleeps addr a :
  is_failure a = true ->
  filter is_Sleep (failed_attempt addr a) = [Sleep 5]
  /\ length (filter is_Connect (failed_attempt addr a)) = 1.
Proof.
  unfold is_failure. destruct a as [e|e| |e|]; simpl; try discriminate;
    intros _; split; reflexivity.
Qed.

(** One 5-second sleep and one connection per failed attempt. *)
Lemma retries_sleep_5_each addr failures :
  forallb is_failure failures = true ->
  filter is_Sleep (flat_map (failed_attempt addr) failures)
  = repeat (Sleep 5) (length failures)
  /\ length (filter is_Connect (flat_map (failed_attempt addr) failures))
     = length failures.
Proof.
  induction failures as [|a failures IH]; intros Hall; [split; reflexivity|].
  simpl in Hall. apply andb_true_iff in Hall as [Ha Hall].
  destruct (IH Hall) as [IHs IHc].
  destruct (failed_attempt_sleeps addr a Ha) as [Hs Hc].
  simpl. rewrite !filter_app, length_app, Hs, Hc, IHs, IHc.
  split; reflexivity.
Qed.

(** After as many failures as the recursion limit allows nested calls,
    BPMWithGUI still reaches the streaming loop when the next attempt
    succeeds. *)
Lemma connect_and_monitor_streams_after depth addr failures :
  forallb is_failure failures = true ->
  length failures <= depth ->
  snd (BPMWithGUI.connect_and_monitor depth addr (failures ++ [notifying]))
  = Streaming.
Proof.
  intros Hall Hdepth.
  rewrite (connect_and_monitor_retries addr failures _ _ Hall Hdepth).
  reflexivity.
Qed.

(** C7, on [getHeartRate] of BPMMonitoringApp: a failure to connect or to
    subscribe is not retried. The coroutine ends with the exception after
    its only connection, without sleeping. *)
Theorem C7_getHeartRate_does_not_retry (addr : string) (e : exn) :
  BPMMonitoringApp.getHeartRate addr (connect_raises e)
  = ([Connect addr], Raised e)
  /\ snd (BPMMonitoringApp.getHeartRate addr (start_notify_raises e))
     = Raised e
  /\ (forall a,
        filter is_Sleep (fst (BPMMonitoringApp.getHeartRate addr a)) = []
        /\ length (filter is_Connect
                     (fst (BPMMonitoringApp.getHeartRate addr a))) = 1).
Proof.
  split; [reflexivity|]. split; [reflexivity|].
  intros a. destruct a; split; reflexivity.
Qed.

End Session.

(** ** The three notifications of the end-to-end scenario *)

Example three_notifications :
  let payloads := [[x00; x3c]; [x00; x3d]; [x01; x28; x00]] in
  let self := BPMMonitoringApp.__init__ "AA:BB" [] in
  let (r, self') := for_ payloads BPMMonitoringApp.heartRateCallback self in
  r = Py.Ok tt
  /\ Deque.to_list (BPMMonitoringApp.HeartRateValues self')
     = repeat 0%Z 47 ++ [60; 61; 40]%Z
  /\ BPMMonitoringApp.line self' = repeat 0%Z 47 ++ [60; 61; 40]%Z
  /\ BPMMonitoringApp.heartRateLabel self' = "Heart Rate: 40 BPM"%string
  /\ BPMMonitoringApp.ylim self' = (35, 100)%Z.
Proof. vm_compute. repeat split. Qed.

(** * Further properties of the two programs *)

(** ** The axes limits *)

Section Limits.
Import Py.
Local Open Scope Z_scope.

Lemma fold_left_preserves {S X : Type} (P : S -> Prop) (step : S -> X -> S) :
  (forall s x, P s -> P (step s x)) ->
  forall xs s, P s -> P (fold_left step xs s).
Proof.
  intros Hstep xs. induction xs as [|x xs IH]; intros s Hs; [exact Hs|].
  simpl. apply IH, Hstep, Hs.
Qed.

Lemma ylim_bounded_update bpm l l' :
  is_byte bpm ->
  ylim_bounded l ->
  fst l' <= fst l -> snd l <= snd l' ->
  (fst l' = fst l \/ fst l' = bpm - 5) ->
  (snd l' = snd l \/ snd l' = bpm + 5) ->
  ylim_bounded l'.
Proof. unfold ylim_bounded, is_byte. lia. Qed.

Lemma updateHeartRate_ylim bpm self :
  let l := BPMMonitoringApp.ylim self in
  let l' := BPMMonitoringApp.ylim
              (snd (BPMMonitoringApp.updateHeartRate bpm self)) in
  fst l' <= fst l /\ snd l <= snd l' /\ fst l' <= bpm <= snd l'
  /\ (fst l' = fst l \/ fst l' = bpm - 5)
  /\ (snd l' = snd l \/ snd l' = bpm + 5).
Proof.
  unfold BPMMonitoringApp.updateHeartRate.
  destruct (BPMMonitoringApp.ylim self) as [y_min y_max]. cbn.
  destruct (Z.gtb_spec bpm y_max), (Z.ltb_spec bpm y_min); lia.
Qed.

Lemma update_heart_rate_ylim bpm self frame :
  BPMWithGUI.heart_rate_frame self = Some frame ->
  exists frame',
    BPMWithGUI.heart_rate_frame
      (snd (BPMWithGUI.update_heart_rate bpm self)) = Some frame'
    /\ fst (BPMWithGUI.ylim frame') <= fst (BPMWithGUI.ylim frame)
    /\ snd (BPMWithGUI.ylim frame) <= snd (BPMWithGUI.ylim frame')
    /\ fst (BPMWithGUI.ylim frame') <= bpm - 5
    /\ bpm + 5 <= snd (BPMWithGUI.ylim frame')
    /\ (fst (BPMWithGUI.ylim frame') = fst (BPMWithGUI.ylim frame)
        \/ fst (BPMWithGUI.ylim frame') = bpm - 5)
    /\ (snd (BPMWithGUI.ylim frame') = snd (BPMWithGUI.ylim frame)
        \/ snd (BPMWithGUI.ylim frame') = bpm + 5).
Proof.
  intros Hframe. unfold BPMWithGUI.update_heart_rate. rewrite Hframe.
  destruct (BPMWithGUI.ylim frame) as [y_min y_max]. cbn.
  eexists. split; [reflexivity|]. cbn.
  destruct (Z.gtb_spec (bpm + 5) y_max), (Z.ltb_spec (bpm - 5) y_min); lia.
Qed.

(** X1. In BPMMonitoringApp, on samples that are values of a byte, as
    the callback passes them, and from limits within -5 and 260 that
    contain the first window, as at the start: the axes limits only widen,
    after any run of updates every sample of the run lies within them, and
    they are still within -5 and 260. *)
Theorem X1_samples_within_limits_App (samples : list Z) :
  Forall is_byte samples ->
  forall self,
    ylim_bounded (BPMMonitoringApp.ylim self) ->
    let l := BPMMonitoringApp.ylim self in
    let l' := ylim_App self samples in
    fst l' <= fst l
    /\ snd l <= snd l'
    /\ (forall x, In x samples -> fst l' <= x <= snd l')
    /\ ylim_bounded l'.
Proof.
  unfold ylim_App. intros Hall.
  induction Hall as [|bpm samples Hbpm Hall IH]; intros self Hb; cbv zeta.
  - simpl. split; [lia|split; [lia|split; [intros x []|exact Hb]]].
  - rewrite (for_cons_ok _ _ _ _ (proj1 (updateHeartRate_ok bpm self))).
    pose proof (updateHeartRate_ylim bpm self) as Hstep. cbv zeta in Hstep.
    destruct Hstep as (Hlo & Hhi & Hin & Hlo' & Hhi').
    assert (Hb1 : ylim_bounded
                    (BPMMonitoringApp.ylim
                       (snd (BPMMonitoringApp.updateHeartRate bpm self))))
      by (eapply ylim_bounded_update; eauto).
    specialize (IH (snd (BPMMonitoringApp.updateHeartRate bpm self)) Hb1).
    cbv zeta in IH. destruct IH as (IHlo & IHhi & IHin & IHb).
    split; [lia|split; [lia|split; [|exact IHb]]].
    intros x [<-|Hx]; [lia|apply (IHin x Hx)].
Qed.

Lemma X1_samples_within_limits_App_witness :
  let l' := ylim_App (BPMMonitoringApp.__init__ "AA:BB" []) [60; 104; 47] in
  fst l' <= 47 /\ 104 <= snd l'.
Proof.
  assert (Hall : Forall is_byte [60; 104; 47])
    by (repeat constructor; unfold is_byte; lia).
  assert (Hb : ylim_bounded
                 (BPMMonitoringApp.ylim (BPMMonitoringApp.__init__ "AA:BB" [])))
    by (unfold ylim_bounded; simpl; lia).
  pose proof (X1_samples_within_limits_App [60; 104; 47] Hall
                (BPMMonitoringApp.__init__ "AA:BB" []) Hb) as (_ & _ & H & _).
  cbv zeta. split.
  - apply (H 47). simpl. lia.
  - apply (H 104). simpl. lia.
Defined.

(** X2. In BPMWithGUI, on samples that are values of a byte, as the
    callback passes them, and from limits within -5 and 260 that contain
    the first window, as at the start: the axes limits only widen, after
    any run of updates every sample of the run lies within them with a
    margin of 5 on both sides, and they are still within -5 and 260. *)
Theorem X2_samples_within_limits_GUI (samples : list Z) :
  Forall is_byte samples ->
  forall self frame,
    BPMWithGUI.heart_rate_frame self = Some frame ->
    ylim_bounded (BPMWithGUI.ylim frame) ->
    exists l',
      ylim_GUI self samples = Some l'
      /\ fst l' <= fst (BPMWithGUI.ylim frame)
      /\ snd (BPMWithGUI.ylim frame) <= snd l'
      /\ (forall x, In x samples -> fst l' <= x - 5 /\ x + 5 <= snd l')
      /\ ylim_bounded l'.
Proof.
  unfold ylim_GUI. intros Hall.
  induction Hall as [|bpm samples Hbpm Hall IH]; intros self frame Hframe Hb.
  - simpl. rewrite Hframe. simpl. eexists. split; [reflexivity|].
    split; [lia|split; [lia|split; [intros x []|exact Hb]]].
  - destruct (update_heart_rate_ok bpm self frame Hframe) as (Hok & _).
    rewrite (for_cons_ok _ _ _ _ Hok).
    destruct (update_heart_rate_ylim bpm self frame Hframe)
      as (frame1 & Hf1 & Hlo & Hhi & Hm1 & Hm2 & Hlo' & Hhi').
    assert (Hb1 : ylim_bounded (BPMWithGUI.ylim frame1))
      by (eapply ylim_bounded_update; eauto).
    destruct (IH _ _ Hf1 Hb1) as (l' & Hl' & IHlo & IHhi & IHin & IHb).
    exists l'. split; [exact Hl'|].
    split; [lia|split; [lia|split; [|exact IHb]]].
    intros x [<-|Hx]; [lia|apply (IHin x Hx)].
Qed.

Lemma X2_samples_within_limits_GUI_witness :
  exists l',
    ylim_GUI (snd (BPMWithGUI.start_heart_rate_gui (BPMWithGUI.__init__ [])))
      [60; 98; 47]
    = Some l'
    /\ fst l' <= 50 /\ 100 <= snd l'
    /\ (forall x, In x [60; 98; 47] -> fst l' <= x - 5 /\ x + 5 <= snd l')
    /\ ylim_bounded l'.
Proof.
  apply (X2_samples_within_limits_GUI [60; 98; 47]
           ltac:(repeat constructor; unfold is_byte; lia)
           (snd (BPMWithGUI.start_heart_rate_gui (BPMWithGUI.__init__ [])))
           _ eq_refl).
  unfold ylim_bounded. simpl. lia.
Defined.

End Limits.

(** ** Runs of notifications *)

Section Notifications.
Import Py HeartRateMeasurement.

Lemma getitem_range (data : bytearray) (i : nat) (b : Z) :
  getitem data i = Ok b -> is_byte b.
Proof.
  unfold getitem. destruct (nth_error data i) as [x|]; [|discriminate].
  intros [= <-]. apply int_of_byte_range.
Qed.

Lemma heartRateCallback_bounded data self :
  ylim_bounded (BPMMonitoringApp.ylim self) ->
  ylim_bounded
    (BPMMonitoringApp.ylim (snd (BPMMonitoringApp.heartRateCallback data self))).
Proof.
  intros Hb. unfold BPMMonitoringApp.heartRateCallback, bind, eval.
  destruct (getitem data 1) as [bpm|e] eqn:Hget; [|exact Hb].
  unfold print at 1.
  match goal with
  | |- context [BPMMonitoringApp.updateHeartRate bpm ?s] =>
      pose proof (updateHeartRate_ylim bpm s) as H;
      change (BPMMonitoringApp.ylim s) with (BPMMonitoringApp.ylim self) in H
  end.
  cbv zeta in H. destruct H as (Hlo & Hhi & _ & Hlo' & Hhi').
  eapply ylim_bounded_update; eauto using getitem_range.
Qed.

Lemma heart_rate_callback_bounded data self frame :
  BPMWithGUI.heart_rate_frame self = Some frame ->
  ylim_bounded (BPMWithGUI.ylim frame) ->
  exists frame',
    BPMWithGUI.heart_rate_frame
      (snd (BPMWithGUI.heart_rate_callback data self)) = Some frame'
    /\ ylim_bounded (BPMWithGUI.ylim frame').
Proof.
  intros Hframe Hb. unfold BPMWithGUI.heart_rate_callback, bind, eval.
  destruct (getitem data 1) as [bpm|e] eqn:Hget; [|now exists frame].
  unfold print at 1.
  match goal with
  | |- context [BPMWithGUI.update_heart_rate bpm ?s] =>
      destruct (update_heart_rate_ylim bpm s frame Hframe)
        as (frame' & Hf' & Hlo & Hhi & _ & _ & Hlo' & Hhi')
  end.
  exists frame'. split; [exact Hf'|].
  eapply ylim_bounded_update; eauto using getitem_range.
Qed.

(** X3. From the start of monitoring, with the callback called once per
    notification whatever the one before returned or raised, and whatever
    the payloads, short ones included, the axes limits of both programs
    always contain the first window, 50 to 100, and never go below -5 or
    above 260. *)
Theorem X3_limits_stay_bounded (payloads : list bytearray) :
  (forall addr out,
      ylim_bounded
        (BPMMonitoringApp.ylim
           (notified_App payloads (BPMMonitoringApp.__init__ addr out))))
  /\ (forall self,
        exists frame',
          BPMWithGUI.heart_rate_frame
            (notified_GUI payloads
               (snd (BPMWithGUI.start_heart_rate_gui self)))
          = Some frame'
          /\ ylim_bounded (BPMWithGUI.ylim frame')).
Proof.
  split.
  - intros addr out.
    apply (fold_left_preserves
             (fun s => ylim_bounded (BPMMonitoringApp.ylim s))).
    + intros s data. apply heartRateCallback_bounded.
    + unfold ylim_bounded. simpl. lia.
  - intros self.
    apply (fold_left_preserves
             (fun s => exists frame',
                  BPMWithGUI.heart_rate_frame s = Some frame'
                  /\ ylim_bounded (BPMWithGUI.ylim frame'))).
    + intros s data (frame & Hf & Hb).
      apply (heart_rate_callback_bounded data s frame Hf Hb).
    + eexists. split; [reflexivity|]. unfold ylim_bounded. simpl. lia.
Qed.

(** Two calls of the callback, the first on a short payload: the first
    changes nothing, the second moves the upper limit to 260. *)
Example short_notification_between :
  BPMMonitoringApp.ylim
    (notified_App [[x00]; [x00; xff]] (BPMMonitoringApp.__init__ "AA:BB" []))
  = (50, 260)%Z.
Proof. reflexivity. Qed.

Lemma for_cons_run {S X : Type} (body : X -> M S unit) x xs self :
  fst (body x self) = Ok tt ->
  for_ (x :: xs) body self = for_ xs body (snd (body x self)).
Proof.
  intros Hok. cbn [for_]. unfold bind.
  destruct (body x self) as [r self']. simpl in *. now subst r.
Qed.

(** X4. A run of notifications of at least 2 bytes each goes through in
    BPMMonitoringApp: no callback raises, the bytes at offset 1 are
    appended to the history in arrival order, and one line per
    notification is printed, in the same order. From the start the
    snapshot is the last 50 of the 50 zeros followed by those bytes. *)
Theorem X4_notifications_in_order_App (payloads : list bytearray) :
  Forall (fun data => 2 <= length data) payloads ->
  forall self,
    let bpms := map (fun data => byte_at data 1) payloads in
    let self' := snd (for_ payloads BPMMonitoringApp.heartRateCallback self) in
    fst (for_ payloads BPMMonitoringApp.heartRateCallback self) = Ok tt
    /\ BPMMonitoringApp.HeartRateValues self'
       = Deque.extend (BPMMonitoringApp.HeartRateValues self) bpms
    /\ BPMMonitoringApp.stdout self'
       = BPMMonitoringApp.stdout self ++ map heart_rate_line bpms
    /\ (BPMMonitoringApp.HeartRateValues self
        = Deque.new (list_mul 0%Z 50) 50 ->
        Deque.to_list (BPMMonitoringApp.HeartRateValues self')
        = lastn 50 (repeat 0%Z 50 ++ bpms)).
Proof.
  intros Hall.
  assert (Hrun : forall self,
             fst (for_ payloads BPMMonitoringApp.heartRateCallback self)
             = Ok tt
             /\ BPMMonitoringApp.HeartRateValues
                  (snd (for_ payloads BPMMonitoringApp.heartRateCallback self))
                = Deque.extend (BPMMonitoringApp.HeartRateValues self)
                    (map (fun data => byte_at data 1) payloads)
             /\ BPMMonitoringApp.stdout
                  (snd (for_ payloads BPMMonitoringApp.heartRateCallback self))
                = BPMMonitoringApp.stdout self
                  ++ map heart_rate_line
                       (map (fun data => byte_at data 1) payloads)).
  { induction Hall as [|data payloads Hlen Hall IH]; intros self.
    - simpl. now rewrite app_nil_r.
    - pose proof (heartRateCallback_byte_1 data Hlen self) as Hy.
      destruct (BPMMonitoringApp.heartRateCallback data self)
        as [r self1] eqn:Hcb.
      destruct Hy as (-> & Hv & _ & Hout).
      rewrite for_cons_run by now rewrite Hcb.
      rewrite Hcb. cbn [snd].
      destruct (IH self1) as (IHr & IHv & IHout).
      split; [exact IHr|]. split.
      + rewrite IHv, Hv. reflexivity.
      + rewrite IHout, Hout, <- app_assoc. reflexivity. }
  intros self. cbv zeta. destruct (Hrun self) as (Hr & Hv & Hout).
  split; [exact Hr|]. split; [exact Hv|]. split; [exact Hout|].
  intros Hinit. unfold Deque.to_list. rewrite Hv, Hinit.
  apply (items_new_extend (repeat 0%Z 50) 50).
Qed.

Lemma X4_notifications_in_order_App_witness :
  let payloads := [[x00; x3c]; [x16; x3d; xff]; [x01; x28; x00]] in
  let self := BPMMonitoringApp.__init__ "AA:BB" [] in
  BPMMonitoringApp.stdout
    (snd (for_ payloads BPMMonitoringApp.heartRateCallback self))
  = map heart_rate_line [60; 61; 40]%Z.
Proof.
  cbv zeta.
  apply (X4_notifications_in_order_App
           [[x00; x3c]; [x16; x3d; xff]; [x01; x28; x00]]).
  repeat constructor; simpl; lia.
Defined.

End Notifications.

(** ** Scans that find devices, scans that fail *)

Section Listing.
Import Py Ble.

Lemma for_print {X : Type} (f : X -> string) (xs : list X) :
  forall out : list string,
    for_ xs (fun x => print (f x)) out = (Ok tt, out ++ map f xs).
Proof.
  induction xs as [|x xs IH]; intros out; simpl.
  - now rewrite app_nil_r.
  - unfold bind, print at 1. rewrite IH. unfold put_line, Stdout_lines.
    now rewrite <- app_assoc.
Qed.

Lemma for_ext {S X : Type} (f g : X -> M S unit) (xs : list X) :
  (forall x s, f x s = g x s) -> forall s, for_ xs f s = for_ xs g s.
Proof.
  intros Hfg. induction xs as [|x xs IH]; intros s; [reflexivity|].
  cbn [for_]. unfold bind. rewrite Hfg.
  destruct (g x s) as [[[]|e] s']; [apply IH|reflexivity].
Qed.

Lemma map_fst_combine {X Y : Type} (l : list X) : forall l' : list Y,
  length l = length l' -> map fst (combine l l') = l.
Proof.
  induction l as [|x l IH]; intros [|y l'] Hl; simpl in *;
    try discriminate; [reflexivity|].
  f_equal. apply IH. lia.
Qed.

Lemma map_snd_combine {X Y : Type} (l : list X) : forall l' : list Y,
  length l = length l' -> map snd (combine l l') = l'.
Proof.
  induction l as [|x l IH]; intros [|y l'] Hl; simpl in *;
    try discriminate; [reflexivity|].
  f_equal. apply IH. lia.
Qed.

Lemma enumerate1_fst {X : Type} (xs : list X) :
  map fst (enumerate1 xs) = upto (length xs).
Proof.
  unfold enumerate1, upto.
  apply map_fst_combine. now rewrite length_map, length_seq.
Qed.

Lemma enumerate1_snd {X : Type} (xs : list X) :
  map snd (enumerate1 xs) = xs.
Proof.
  unfold enumerate1.
  apply map_snd_combine. now rewrite length_map, length_seq.
Qed.

(** X5. When the discovery finds devices, [scanDevices] prints the
    scanning line, the header, and then exactly one line per device, in
    discovery order, numbered from 1; it does not print the message for an
    empty scan, and it does not raise. *)
Theorem X5_scanDevices_lists_every_device (devices : list BLEDevice) :
  devices <> [] ->
  forall out,
    BPMMonitoringApp.scanDevices (Ok devices) out
    = (Ok tt,
       out ++ ["🔍 Scanning for devices..."%string;
               (nl +++ "🔽 Available Devices:")%string]
           ++ map numbered (enumerate1 devices))
    /\ map fst (enumerate1 devices) = upto (length devices)
    /\ map snd (enumerate1 devices) = devices.
Proof.
  intros Hne out.
  split; [|split; [apply enumerate1_fst|apply enumerate1_snd]].
  destruct devices as [|d devices]; [contradiction|].
  unfold BPMMonitoringApp.scanDevices, bind, eval.
  unfold print at 1 2, put_line, Stdout_lines.
  rewrite (for_ext _ (fun p => print (numbered p))).
  - rewrite for_print, <- !app_assoc. reflexivity.
  - intros [idx device] s. reflexivity.
Qed.

Lemma X5_scanDevices_lists_every_device_witness :
  let found := [ {| name := Some "HRM-1"%string; address := "AA:BB"%string |};
                 {| name := Some ""%string; address := "CC:DD"%string |} ] in
  snd (BPMMonitoringApp.scanDevices (Ok found) [])
  = ["🔍 Scanning for devices..."%string;
     (nl +++ "🔽 Available Devices:")%string;
     "1. 📡 HRM-1 - AA:BB"%string;
     "2. 📡 Unknown - CC:DD"%string].
Proof.
  cbv zeta.
  assert (Hne : [ {| name := Some "HRM-1"%string; address := "AA:BB"%string |};
                  {| name := Some ""%string; address := "CC:DD"%string |} ]
                <> []) by discriminate.
  rewrite (proj1 (X5_scanDevices_lists_every_device _ Hne [])).
  reflexivity.
Defined.

Lemma for_listbox_insert_end {X : Type} (f : X -> string) (xs : list X) :
  forall self,
    for_ xs (fun x => BPMWithGUI.listbox_insert_end (f x)) self
    = (Ok tt,
       {| BPMWithGUI.device_listbox :=
            BPMWithGUI.device_listbox self ++ map f xs;
          BPMWithGUI.heart_rate_frame := BPMWithGUI.heart_rate_frame self;
          BPMWithGUI.dialogs := BPMWithGUI.dialogs self;
          BPMWithGUI.stdout := BPMWithGUI.stdout self |}).
Proof.
  induction xs as [|x xs IH]; intros self.
  - destruct self. simpl. now rewrite app_nil_r.
  - cbn [for_]. unfold bind.
    unfold BPMWithGUI.listbox_insert_end at 1, BPMWithGUI.set_device_listbox.
    rewrite IH. simpl. now rewrite <- app_assoc.
Qed.

(** X6. When the discovery finds devices, [_scan_devices] replaces the
    whole content of the list box, the "Scanning..." line or an earlier
    listing, by exactly one line per device, in discovery order; it opens
    no dialog and does not raise. *)
Theorem X6_scan_devices_lists_every_device (devices : list BLEDevice) :
  devices <> [] ->
  forall self,
    let (r, self') := BPMWithGUI._scan_devices (Ok devices) self in
    r = Ok tt
    /\ BPMWithGUI.device_listbox self' = map listed devices
    /\ BPMWithGUI.dialogs self' = BPMWithGUI.dialogs self
    /\ BPMWithGUI.heart_rate_frame self' = BPMWithGUI.heart_rate_frame self
    /\ BPMWithGUI.stdout self' = BPMWithGUI.stdout self.
Proof.
  intros Hne self. destruct devices as [|d devices]; [contradiction|].
  unfold BPMWithGUI._scan_devices, bind, eval.
  unfold BPMWithGUI.listbox_delete_all at 1, BPMWithGUI.set_device_listbox.
  rewrite (for_listbox_insert_end listed). simpl. repeat split.
Qed.

Lemma X6_scan_devices_lists_every_device_witness :
  let found := [ {| name := Some "HRM-1"%string; address := "AA:BB"%string |};
                 {| name := None; address := "CC:DD"%string |} ] in
  let self := snd (BPMWithGUI.scan_devices (BPMWithGUI.__init__ [])) in
  BPMWithGUI.device_listbox
    (snd (BPMWithGUI._scan_devices (Ok found) self))
  = ["HRM-1 - AA:BB"%string; "Unknown - CC:DD"%string].
Proof.
  cbv zeta.
  assert (Hne : [ {| name := Some "HRM-1"%string; address := "AA:BB"%string |};
                  {| name := None; address := "CC:DD"%string |} ]
                <> []) by discriminate.
  pose proof (X6_scan_devices_lists_every_device _ Hne
                (snd (BPMWithGUI.scan_devices (BPMWithGUI.__init__ [])))) as H.
  destruct (BPMWithGUI._scan_devices _ _) as [r self'].
  destruct H as (_ & H & _). exact H.
Defined.

(** X7. When the discovery raises, the scan of BPMWithGUI started from the
    Scan button raises the same exception without opening a dialog: the
    list box is left showing "Scanning..." and nothing else of the state
    changes. The scan of BPMMonitoringApp raises it after the scanning
    line alone. *)
Theorem X7_failed_discovery_is_not_reported (e : exn) :
  (forall self,
      let self1 := snd (BPMWithGUI.scan_devices self) in
      BPMWithGUI._scan_devices (Raise e) self1 = (Raise e, self1)
      /\ BPMWithGUI.device_listbox self1 = ["Scanning..."%string]
      /\ BPMWithGUI.dialogs self1 = BPMWithGUI.dialogs self
      /\ BPMWithGUI.heart_rate_frame self1 = BPMWithGUI.heart_rate_frame self)
  /\ (forall out,
        BPMMonitoringApp.scanDevices (Raise e) out
        = (Raise e, out ++ ["🔍 Scanning for devices..."%string])).
Proof.
  split.
  - intros self. cbv zeta. repeat split.
  - intros out. reflexivity.
Qed.

End Listing.

(** ** Selecting a device *)

Section Selection.
Import Py Ble.

Lemma append_nil_r (s : string) : s +++ EmptyString = s.
Proof. induction s as [|c s IH]; simpl; [reflexivity|now rewrite IH]. Qed.

Lemma append_snoc (piece s : string) (c : ascii) :
  (piece +++ String c EmptyString) +++ s = piece +++ String c s.
Proof.
  induction piece as [|a piece IH]; simpl; [reflexivity|now rewrite IH].
Qed.

Lemma split_from_nonempty (sep s : string) :
  forall skip piece, split_from sep s skip piece <> [].
Proof.
  induction s as [|c s IH]; intros skip piece; cbn [split_from];
    [discriminate|].
  destruct skip as [|n]; [|apply IH].
  destruct (prefix sep (String c s)); [discriminate|apply IH].
Qed.

Lemma getitem_last_cons {A : Type} (x : A) (l : list A) :
  l <> [] -> getitem_last (x :: l) = getitem_last l.
Proof. destruct l; [contradiction|reflexivity]. Qed.

(** A string in which the separator does not occur is one piece. *)
Lemma split_from_no_sep (sep s : string) :
  forall piece,
    contains sep s = false -> split_from sep s 0 piece = [piece +++ s].
Proof.
  induction s as [|c s IH]; intros piece Hno; cbn [split_from].
  - now rewrite append_nil_r.
  - cbn [contains] in Hno. apply orb_false_iff in Hno as [Hp Hc].
    rewrite Hp, (IH _ Hc), append_snoc. reflexivity.
Qed.

Lemma ends_with_tail (suffix s : string) (c : ascii) :
  ends_with suffix (String c s) = false -> ends_with suffix s = false.
Proof.
  cbn [ends_with]. intros H. apply orb_false_iff in H as [_ H]. exact H.
Qed.

Lemma prefix_sep_app (s : string) : prefix " - " (" - " +++ s) = true.
Proof. destruct s; reflexivity. Qed.

Lemma prefix_cons (a b : ascii) (s1 s2 : string) :
  prefix (String a s1) (String b s2)
  = if ascii_dec a b then prefix s1 s2 else false.
Proof. reflexivity. Qed.

Lemma prefix_sep_inv (c : ascii) (s : string) :
  prefix " - " (String c s) = true ->
  c = " "%char /\ exists s', s = String "-" (String " " s').
Proof.
  rewrite prefix_cons. destruct (ascii_dec " " c) as [<-|]; [|discriminate].
  destruct s as [|c1 s]; [discriminate|].
  rewrite prefix_cons. destruct (ascii_dec "-" c1) as [<-|]; [|discriminate].
  destruct s as [|c2 s]; [discriminate|].
  rewrite prefix_cons. destruct (ascii_dec " " c2) as [<-|]; [|discriminate].
  intros _. split; [reflexivity|]. now exists s.
Qed.

(** The last piece of [name - address]: the address, when the name does
    not end with [" -"] and [" - "] does not occur in the address. *)
Lemma split_last_is_address (address : string) :
  contains " - " address = false ->
  forall (shown : string) (skip : nat) (piece : string),
    skip <= String.length shown ->
    ends_with " -" shown = false ->
    getitem_last
      (split_from " - " (shown +++ " - " +++ address) skip piece)
    = Ok address.
Proof.
  intros Hno shown. set (rest := " - " +++ address).
  induction shown as [|c shown IH]; intros skip piece Hskip Hends.
  - assert (skip = 0) as -> by (simpl in Hskip; lia).
    change (EmptyString +++ rest) with rest.
    pose proof (prefix_sep_app address) as Hp. fold rest in Hp.
    unfold rest in *.
    change (" - " +++ address)
      with (String " " (String "-" (String " " address))) in *.
    cbn [split_from]. rewrite Hp. cbn [split_from String.length Nat.sub].
    rewrite (split_from_no_sep _ _ _ Hno). reflexivity.
  - pose proof (ends_with_tail _ _ _ Hends) as Hends'.
    change (String c shown +++ rest) with (String c (shown +++ rest)).
    destruct skip as [|n]; cbn [split_from].
    + destruct (prefix " - " (String c (shown +++ rest))) eqn:Hp.
      * rewrite getitem_last_cons by apply split_from_nonempty.
        apply IH; [|exact Hends'].
        destruct (prefix_sep_inv _ _ Hp) as (-> & s' & Hs').
        destruct shown as [|c1 [|c2 shown]]; simpl; try lia; exfalso.
        -- discriminate Hs'.
        -- injection Hs' as -> _. discriminate Hends.
      * apply IH; [lia|exact Hends'].
    + apply IH; [|exact Hends']. simpl in Hskip. lia.
Qed.

Lemma scan_devices_found (d : BLEDevice) (devices : list BLEDevice) self :
  BPMWithGUI._scan_devices (Ok (d :: devices)) self
  = (Ok tt,
     {| BPMWithGUI.device_listbox := map listed (d :: devices);
        BPMWithGUI.heart_rate_frame := BPMWithGUI.heart_rate_frame self;
        BPMWithGUI.dialogs := BPMWithGUI.dialogs self;
        BPMWithGUI.stdout := BPMWithGUI.stdout self |}).
Proof.
  unfold BPMWithGUI._scan_devices, bind, eval.
  unfold BPMWithGUI.listbox_delete_all at 1, BPMWithGUI.set_device_listbox.
  rewrite (for_listbox_insert_end listed). reflexivity.
Qed.

(** X8. With nothing selected, [connect_device] opens the dialog "Please
    select a device." and does nothing else: no address is assigned, the
    list box keeps its lines, no monitoring view is created, and nothing
    is raised. *)
Theorem X8_connect_device_without_selection self :
  let (r, self') := BPMWithGUI.connect_device [] self in
  r = Ok None
  /\ BPMWithGUI.dialogs self'
     = BPMWithGUI.dialogs self
       ++ [("Error"%string, "Please select a device."%string)]
  /\ BPMWithGUI.device_listbox self' = BPMWithGUI.device_listbox self
  /\ BPMWithGUI.heart_rate_frame self' = BPMWithGUI.heart_rate_frame self
  /\ BPMWithGUI.stdout self' = BPMWithGUI.stdout self.
Proof. cbn. repeat split. Qed.

(** X9. Scan, then connect: after a scan that found [devices], selecting
    line [i] assigns the address of device [i], provided the name shown for
    it does not end with [" -"] and [" - "] does not occur in its address.
    The list box then shows the one line "Connecting to <address>...", a
    fresh monitoring view with 50 zeros is created, and no dialog opens. *)
Theorem X9_selected_line_gives_its_address
  (devices : list BLEDevice) (i : nat) (others : list nat) (d : BLEDevice) :
  nth_error devices i = Some d ->
  ends_with " -" (or_ (name d) "Unknown") = false ->
  contains " - " (address d) = false ->
  forall self,
    let self1 := snd (BPMWithGUI._scan_devices (Ok devices) self) in
    let (r, self2) := BPMWithGUI.connect_device (i :: others) self1 in
    r = Ok (Some (address d))
    /\ BPMWithGUI.device_listbox self2
       = [("Connecting to " +++ address d +++ "...")%string]
    /\ BPMWithGUI.heart_rate_frame self2
       = BPMWithGUI.heart_rate_frame
           (snd (BPMWithGUI.start_heart_rate_gui self))
    /\ BPMWithGUI.dialogs self2 = BPMWithGUI.dialogs self
    /\ BPMWithGUI.stdout self2 = BPMWithGUI.stdout self.
Proof.
  intros Hi Hends Hno self.
  destruct devices as [|d0 devices]; [destruct i; discriminate|].
  rewrite scan_devices_found. cbv zeta. cbn [snd].
  unfold BPMWithGUI.connect_device, try_except, bind, eval.
  unfold BPMWithGUI.listbox_get at 1. cbn [BPMWithGUI.device_listbox].
  rewrite (nth_error_nth _ _ _ (map_nth_error listed _ _ Hi)).
  unfold split, listed.
  rewrite (split_last_is_address _ Hno _ 0 EmptyString (Nat.le_0_l _) Hends).
  cbn. repeat split.
Qed.

Lemma X9_selected_line_gives_its_address_witness :
  let found := [ {| name := Some "HRM-1"%string; address := "AA:BB"%string |};
                 {| name := None; address := "CC:DD"%string |} ] in
  fst (BPMWithGUI.connect_device [1]
         (snd (BPMWithGUI._scan_devices (Ok found) (BPMWithGUI.__init__ []))))
  = Ok (Some "CC:DD"%string).
Proof.
  cbv zeta.
  pose proof (X9_selected_line_gives_its_address
                [ {| name := Some "HRM-1"%string; address := "AA:BB"%string |};
                  {| name := None; address := "CC:DD"%string |} ]
                1 [] {| name := None; address := "CC:DD"%string |}
                eq_refl eq_refl eq_refl (BPMWithGUI.__init__ [])) as H.
  cbv zeta in H.
  destruct (BPMWithGUI.connect_device _ _) as [r self2].
  destruct H as (H & _). exact H.
Defined.

End Selection.

(** A name that ends with [" -"] breaks the recovery of the address. *)
Example name_ending_with_dash :
  let found := [ {| Ble.name := Some "Polar -"%string;
                    Ble.address := "AA:BB"%string |} ] in
  fst (BPMWithGUI.connect_device [0]
         (snd (BPMWithGUI._scan_devices (Py.Ok found) (BPMWithGUI.__init__ []))))
  = Py.Ok (Some "- AA:BB"%string).
Proof. reflexivity. Qed.

(** ** How a session of BPMWithGUI goes on and ends *)

Section Retry.
Import Py Ble.

(** X10. In BPMWithGUI, when attempts fail in a row with an [Exception],
    at connecting, at [is_connected] or at subscribing, no more of them
    than the recursion limit allows nested calls, and the next attempt
    succeeds, the session reaches the streaming loop after exactly one
    5-second sleep per failure and one more connection than there were
    failures. *)
Theorem X10_retries_until_streaming depth addr (failures : list attempt) :
  forallb is_failure failures = true ->
  length failures <= depth ->
  let (t, st) :=
    BPMWithGUI.connect_and_monitor depth addr (failures ++ [notifying]) in
  st = Streaming
  /\ filter is_Sleep t = repeat (Sleep 5) (length failures)
  /\ length (filter is_Connect t) = S (length failures).
Proof.
  intros Hall Hdepth.
  rewrite (connect_and_monitor_retries addr failures _ _ Hall Hdepth).
  destruct (retries_sleep_5_each addr failures Hall) as [Hs Hc].
  cbn [BPMWithGUI.connect_and_monitor BPMWithGUI.try_block fst snd].
  split; [reflexivity|].
  rewrite !filter_app, length_app, Hs, Hc. simpl.
  split; [now rewrite app_nil_r|lia].
Qed.

Lemma X10_retries_until_streaming_witness :
  snd (BPMWithGUI.connect_and_monitor 3 "AA:BB"
         ([connect_raises (Exception "BleakError" "Device not found");
           is_connected_raises (Exception "TypeError" "not callable");
           start_notify_raises (Exception "BleakError" "no characteristic")]
            ++ [notifying]))
  = Streaming.
Proof.
  pose proof (X10_retries_until_streaming 3 "AA:BB"
                [connect_raises (Exception "BleakError" "Device not found");
                 is_connected_raises (Exception "TypeError" "not callable");
                 start_notify_raises
                   (Exception "BleakError" "no characteristic")]
                eq_refl ltac:(simpl; lia)) as H.
  destruct (BPMWithGUI.connect_and_monitor _ _ _) as [t st].
  destruct H as (H & _). exact H.
Defined.



(** X12. In BPMWithGUI, when after failed attempts, no more of them than
    the recursion limit allows nested calls, [is_connected()] is false,
    the session ends there: the coroutine disconnects and returns without
    subscribing, without printing an error, without sleeping and without
    another attempt. *)
Theorem X12_not_connected_ends_the_session depth addr
  (failures rest : list attempt) :
  forallb is_failure failures = true ->
  length failures <= depth ->
  BPMWithGUI.connect_and_monitor depth addr
    (failures ++ not_connected :: rest)
  = (flat_map (failed_attempt addr) failures ++ [Connect addr; Disconnect],
     Returned).
Proof.
  intros Hall Hdepth.
  rewrite (connect_and_monitor_retries addr failures _ _ Hall Hdepth).
  reflexivity.
Qed.

Lemma X12_not_connected_ends_the_session_witness :
  BPMWithGUI.connect_and_monitor 1 "AA:BB"
    ([connect_raises (Exception "BleakError" "Device not found")]
       ++ not_connected :: [notifying])
  = ([Connect "AA:BB";
      Print "⚠️ Error: Device not found"; Sleep 5;
      Connect "AA:BB"; Disconnect],
     Returned).
Proof.
  apply (X12_not_connected_ends_the_session 1 "AA:BB"
           [connect_raises (Exception "BleakError" "Device not found")]
           [notifying]).
  - reflexivity.
  - simpl. lia.
Defined.

(** X13. In BPMWithGUI an exception that is not an [Exception] is not
    retried: after failed attempts, no more of them than the recursion
    limit allows nested calls, it ends the session at once, with no error
    line, no sleep and no further attempt. *)
Theorem X13_base_exception_ends_the_session depth addr
  (failures rest : list attempt) (a : attempt) (e : exn) :
  forallb is_failure failures = true ->
  length failures <= depth ->
  raised_by a = Some e ->
  isinstance_Exception e = false ->
  BPMWithGUI.connect_and_monitor depth addr (failures ++ a :: rest)
  = (flat_map (failed_attempt addr) failures
       ++ fst (BPMWithGUI.try_block addr a),
     Raised e).
Proof.
  intros Hall Hdepth Hr He.
  rewrite (connect_and_monitor_retries addr failures _ _ Hall Hdepth).
  cbn [BPMWithGUI.connect_and_monitor].
  destruct a as [e0|e0| |e0|]; simpl in Hr; try discriminate;
    injection Hr as ->; cbn [BPMWithGUI.try_block fst snd];
    rewrite He; reflexivity.
Qed.

Lemma X13_base_exception_ends_the_session_witness :
  BPMWithGUI.connect_and_monitor 1 "AA:BB"
    ([connect_raises (Exception "BleakError" "Device not found")]
       ++ connect_raises (BaseException "CancelledError" "") :: [notifying])
  = ([Connect "AA:BB";
      Print "⚠️ Error: Device not found"; Sleep 5;
      Connect "AA:BB"],
     Raised (BaseException "CancelledError" "")).
Proof.
  apply (X13_base_exception_ends_the_session 1 "AA:BB"
           [connect_raises (Exception "BleakError" "Device not found")]
           [notifying] (connect_raises (BaseException "CancelledError" ""))
           (BaseException "CancelledError" ""));
    first [reflexivity | simpl; lia].
Defined.

End Retry.

(** ** The menu of BPMMonitoringApp *)

Section Menu.
Import Py Ble.
Variable discover : nat -> result (list BLEDevice).

Lemma menu_loop_cons scans inner typed rest :
  BPMMonitoringApp.menu_loop discover scans inner (typed :: rest)
  = if inner then
      if String.eqb typed "0" then
        let (t, st) := BPMMonitoringApp.menu_loop discover scans false rest in
        (BPMMonitoringApp.address_prompt :: t, st)
      else
        let (t, st) := BPMMonitoringApp.menu_loop discover scans true rest in
        (launch typed ++ t, st)
    else if String.eqb typed "1" then
      match BPMMonitoringApp.scanDevices (discover scans) [] with
      | (Ok _, out) =>
          let (t, st) :=
            BPMMonitoringApp.menu_loop discover (S scans) false rest in
          (BPMMonitoringApp.banner
             ++ BPMMonitoringApp.Cleared
             :: map BPMMonitoringApp.Printed out ++ t, st)
      | (Raise e, out) =>
          (BPMMonitoringApp.banner
             ++ BPMMonitoringApp.Cleared :: map BPMMonitoringApp.Printed out,
           BPMMonitoringApp.Failed e)
      end
    else if String.eqb typed "2" then
      let (t, st) := BPMMonitoringApp.menu_loop discover scans true rest in
      (BPMMonitoringApp.banner ++ BPMMonitoringApp.Cleared :: t, st)
    else if String.eqb typed "0" then
      (BPMMonitoringApp.banner
         ++ [BPMMonitoringApp.Printed "🚪 Exiting program."],
       BPMMonitoringApp.Exited)
    else
      let (t, st) := BPMMonitoringApp.menu_loop discover scans false rest in
      (BPMMonitoringApp.banner
         ++ BPMMonitoringApp.Printed
              "⚠️ Invalid choice. Please enter 1, 2, or 0." :: t,
       st).
Proof. reflexivity. Qed.

(** X14. As long as neither "1" nor "2" is typed, [main_menu] starts
    nothing: it never clears the screen, scans or opens a window, and it
    does not fail. It exits when "0" is among the lines typed, and is
    waiting for input otherwise. *)
Theorem X14_menu_starts_nothing_unasked (inputs : list string) :
  ~ In "1"%string inputs ->
  ~ In "2"%string inputs ->
  let (t, st) := BPMMonitoringApp.main_menu discover inputs in
  filter starts_something t = []
  /\ (In "0"%string inputs -> st = BPMMonitoringApp.Exited)
  /\ (~ In "0"%string inputs -> st = BPMMonitoringApp.Waiting).
Proof.
  unfold BPMMonitoringApp.main_menu. generalize 0 as scans.
  induction inputs as [|typed rest IH]; intros scans H1 H2.
  - simpl. split; [reflexivity|]. split; [intros []|reflexivity].
  - rewrite menu_loop_cons.
    destruct (String.eqb_spec typed "1") as [->|_]; [exfalso; apply H1; now left|].
    destruct (String.eqb_spec typed "2") as [->|_]; [exfalso; apply H2; now left|].
    destruct (String.eqb_spec typed "0") as [->|H0].
    + split; [reflexivity|]. split; [reflexivity|].
      intros Hn. exfalso. apply Hn. now left.
    + specialize (IH scans (fun H => H1 (or_intror H))
                    (fun H => H2 (or_intror H))).
      destruct (BPMMonitoringApp.menu_loop discover scans false rest)
        as [t st].
      destruct IH as (IHt & IHin & IHout).
      split; [exact IHt|]. split.
      * intros [Heq|Hin]; [congruence|exact (IHin Hin)].
      * intros Hn. apply IHout. intros Hin. apply Hn. now right.
Qed.

Lemma address_loop (addrs : list string) : forall scans rest,
  Forall (fun typed => typed <> "0"%string) addrs ->
  BPMMonitoringApp.menu_loop discover scans true (addrs ++ "0"%string :: rest)
  = (flat_map launch addrs
       ++ BPMMonitoringApp.address_prompt
       :: fst (BPMMonitoringApp.menu_loop discover scans false rest),
     snd (BPMMonitoringApp.menu_loop discover scans false rest)).
Proof.
  induction addrs as [|typed addrs IH]; intros scans rest Hall.
  - cbn [app flat_map]. rewrite menu_loop_cons. cbn [String.eqb Ascii.eqb].
    now destruct (BPMMonitoringApp.menu_loop discover scans false rest).
  - inversion Hall as [|? ? Hne Hall']; subst.
    rewrite <- app_comm_cons, menu_loop_cons.
    destruct (String.eqb_spec typed "0") as [->|_]; [contradiction|].
    rewrite (IH scans rest Hall'). cbn [flat_map].
    now rewrite <- app_assoc.
Qed.

(** X15. In the address loop of [main_menu], entered with "2", every line
    other than "0" is taken as it is for a device address, the empty line
    too: each one opens the monitoring window for exactly that text, in
    the order typed. "0" opens nothing and leads back to the menu, which
    goes on as from its start; it does not exit the program. *)
Theorem X15_address_loop (addrs rest : list string) :
  Forall (fun typed => typed <> "0"%string) addrs ->
  BPMMonitoringApp.main_menu discover
    ("2"%string :: addrs ++ "0"%string :: rest)
  = (BPMMonitoringApp.banner
       ++ BPMMonitoringApp.Cleared
       :: flat_map launch addrs
       ++ BPMMonitoringApp.address_prompt
       :: fst (BPMMonitoringApp.main_menu discover rest),
     snd (BPMMonitoringApp.main_menu discover rest)).
Proof.
  intros Hall. unfold BPMMonitoringApp.main_menu.
  rewrite menu_loop_cons. cbn [String.eqb Ascii.eqb].
  now rewrite (address_loop addrs 0 rest Hall).
Qed.

(** X17. A discovery that raises ends [main_menu]: when the choices typed
    so far were all invalid, "1" is typed and the discovery raises, the
    menu has answered each invalid choice with its warning, clears the
    screen, prints the scanning line and ends with that exception,
    whatever is typed next; no window was opened. *)
Theorem X17_failed_scan_ends_the_menu (pre rest : list string) (e : exn) :
  Forall (fun typed => typed <> "0" /\ typed <> "1" /\ typed <> "2")%string
    pre ->
  discover 0 = Raise e ->
  BPMMonitoringApp.main_menu discover (pre ++ "1"%string :: rest)
  = (flat_map
       (fun _ =>
          BPMMonitoringApp.banner
            ++ [BPMMonitoringApp.Printed
                  "⚠️ Invalid choice. Please enter 1, 2, or 0."])
       pre
       ++ BPMMonitoringApp.banner
       ++ [BPMMonitoringApp.Cleared;
           BPMMonitoringApp.Printed "🔍 Scanning for devices..."],
     BPMMonitoringApp.Failed e).
Proof.
  intros Hpre Hd. unfold BPMMonitoringApp.main_menu.
  induction Hpre as [|typed pre (H0 & H1 & H2) Hpre IH].
  - cbn [app flat_map]. rewrite menu_loop_cons. cbn [String.eqb Ascii.eqb].
    rewrite Hd. reflexivity.
  - rewrite <- app_comm_cons, menu_loop_cons.
    destruct (String.eqb_spec typed "1") as [->|_]; [contradiction|].
    destruct (String.eqb_spec typed "2") as [->|_]; [contradiction|].
    destruct (String.eqb_spec typed "0") as [->|_]; [contradiction|].
    rewrite IH. cbn [flat_map]. now rewrite <- !app_assoc.
Qed.

End Menu.

Lemma X14_menu_starts_nothing_unasked_witness :
  let (t, st) :=
    BPMMonitoringApp.main_menu (fun _ => Py.Ok [])
      ["3"%string; ""%string; "scan"%string; "0"%string] in
  filter starts_something t = []
  /\ (In "0"%string ["3"%string; ""%string; "scan"%string; "0"%string] ->
      st = BPMMonitoringApp.Exited)
  /\ (~ In "0"%string ["3"%string; ""%string; "scan"%string; "0"%string] ->
      st = BPMMonitoringApp.Waiting).
Proof.
  apply (X14_menu_starts_nothing_unasked (fun _ => Py.Ok [])
           ["3"%string; ""%string; "scan"%string; "0"%string]);
    simpl; intuition discriminate.
Defined.

Lemma X15_address_loop_witness :
  snd (BPMMonitoringApp.main_menu (fun _ => Py.Ok [])
         ("2"%string :: ["AA:BB"%string; ""%string; "1"%string]
            ++ "0"%string :: ["0"%string]))
  = BPMMonitoringApp.Exited.
Proof.
  rewrite (X15_address_loop (fun _ => Py.Ok [])
             ["AA:BB"%string; ""%string; "1"%string] ["0"%string]).
  - reflexivity.
  - repeat constructor; discriminate.
Defined.

Lemma X17_failed_scan_ends_the_menu_witness :
  snd (BPMMonitoringApp.main_menu
         (fun _ => Py.Raise (Py.Exception "BleakError" "adapter not found"))
         (["9"%string; ""%string] ++ "1"%string :: ["0"%string]))
  = BPMMonitoringApp.Failed (Py.Exception "BleakError" "adapter not found").
Proof.
  rewrite (X17_failed_scan_ends_the_menu
             (fun _ => Py.Raise (Py.Exception "BleakError" "adapter not found"))
             ["9"%string; ""%string] ["0"%string]
             (Py.Exception "BleakError" "adapter not found")).
  - reflexivity.
  - repeat constructor; discriminate.
  - reflexivity.
Defined.

(** ** What the window shows after a run of notifications *)

Section Display.
Import Py HeartRateMeasurement.

Lemma heartRateCallback_display (data : bytearray) self :
  2 <= length data ->
  let self' := snd (BPMMonitoringApp.heartRateCallback data self) in
  fst (BPMMonitoringApp.heartRateCallback data self) = Ok tt
  /\ BPMMonitoringApp.heartRateLabel self'
     = "Heart Rate: " +++ str (byte_at data 1) +++ " BPM"
  /\ BPMMonitoringApp.line self'
     = Deque.to_list (BPMMonitoringApp.HeartRateValues self').
Proof.
  intros Hlen. unfold BPMMonitoringApp.heartRateCallback, bind, eval.
  rewrite (getitem_1 data Hlen).
  unfold print, put_line, BPMMonitoringApp.Stdout_HeartRateApp,
    BPMMonitoringApp.updateHeartRate; cbn [BPMMonitoringApp.ylim].
  destruct (BPMMonitoringApp.ylim self) as [y_min y_max].
  cbn. repeat split.
Qed.

Lemma heart_rate_callback_display (data : bytearray) self frame :
  2 <= length data ->
  BPMWithGUI.heart_rate_frame self = Some frame ->
  fst (BPMWithGUI.heart_rate_callback data self) = Ok tt
  /\ exists frame',
       BPMWithGUI.heart_rate_frame
         (snd (BPMWithGUI.heart_rate_callback data self)) = Some frame'
       /\ BPMWithGUI.HeartRateValues frame'
          = Deque.append (BPMWithGUI.HeartRateValues frame) (byte_at data 1)
       /\ BPMWithGUI.heartRateLabel frame'
          = "Heart Rate: " +++ str (byte_at data 1) +++ " BPM"
       /\ BPMWithGUI.line frame'
          = Deque.to_list (BPMWithGUI.HeartRateValues frame')
       /\ BPMWithGUI.stdout (snd (BPMWithGUI.heart_rate_callback data self))
          = BPMWithGUI.stdout self ++ [heart_rate_line (byte_at data 1)].
Proof.
  intros Hlen Hframe. unfold BPMWithGUI.heart_rate_callback, bind, eval.
  rewrite (getitem_1 data Hlen).
  unfold print, put_line, BPMWithGUI.Stdout_HeartRateMonitorApp,
    BPMWithGUI.update_heart_rate; cbn [BPMWithGUI.heart_rate_frame].
  rewrite Hframe.
  destruct (BPMWithGUI.ylim frame) as [y_min y_max].
  cbn. split; [reflexivity|]. eexists. split; [reflexivity|].
  cbn. repeat split.
Qed.

(** X18. A run of notifications of at least 2 bytes each goes through in
    BPMWithGUI once the monitoring view exists: no callback raises, the
    bytes at offset 1 are appended to the history in arrival order, and
    one line per notification is printed, in the same order. *)
Theorem X18_notifications_in_order_GUI (payloads : list bytearray) :
  Forall (fun data => 2 <= length data) payloads ->
  forall self frame,
    BPMWithGUI.heart_rate_frame self = Some frame ->
    let bpms := map (fun data => byte_at data 1) payloads in
    let self' := snd (for_ payloads BPMWithGUI.heart_rate_callback self) in
    fst (for_ payloads BPMWithGUI.heart_rate_callback self) = Ok tt
    /\ (exists frame',
          BPMWithGUI.heart_rate_frame self' = Some frame'
          /\ BPMWithGUI.HeartRateValues frame'
             = Deque.extend (BPMWithGUI.HeartRateValues frame) bpms)
    /\ BPMWithGUI.stdout self'
       = BPMWithGUI.stdout self ++ map heart_rate_line bpms.
Proof.
  intros Hall. cbv zeta.
  induction Hall as [|data payloads Hlen Hall IH]; intros self frame Hframe.
  - simpl. split; [reflexivity|]. split; [now exists frame|].
    now rewrite app_nil_r.
  - destruct (heart_rate_callback_display data self frame Hlen Hframe)
      as (Hok & frame1 & Hf1 & Hv1 & _ & _ & Hout1).
    rewrite (for_cons_run _ _ _ _ Hok).
    destruct (IH _ _ Hf1) as (IHr & (frame' & Hf' & Hv') & IHout).
    split; [exact IHr|]. split.
    + exists frame'. split; [exact Hf'|]. rewrite Hv', Hv1. reflexivity.
    + refine (eq_trans IHout _). rewrite Hout1, <- app_assoc. reflexivity.
Qed.

Lemma X18_notifications_in_order_GUI_witness :
  let payloads := [[x00; x3c]; [x16; x3d; xff]; [x01; x28; x00]] in
  let self := snd (BPMWithGUI.start_heart_rate_gui (BPMWithGUI.__init__ [])) in
  BPMWithGUI.stdout (snd (for_ payloads BPMWithGUI.heart_rate_callback self))
  = map heart_rate_line [60; 61; 40]%Z.
Proof.
  cbv zeta.
  apply (X18_notifications_in_order_GUI
           [[x00; x3c]; [x16; x3d; xff]; [x01; x28; x00]]
           ltac:(repeat constructor; simpl; lia)
           (snd (BPMWithGUI.start_heart_rate_gui (BPMWithGUI.__init__ [])))
           _ eq_refl).
Defined.

(** X19. After a run of notifications of at least 2 bytes each, the label
    of either window shows the byte at offset 1 of the last notification,
    and the plotted line is the current snapshot of the history. *)
Theorem X19_window_shows_the_last_sample
  (payloads : list bytearray) (data : bytearray) :
  Forall (fun data => 2 <= length data) (payloads ++ [data]) ->
  (forall self,
      let self' :=
        snd (for_ (payloads ++ [data]) BPMMonitoringApp.heartRateCallback self)
      in
      BPMMonitoringApp.heartRateLabel self'
      = "Heart Rate: " +++ str (byte_at data 1) +++ " BPM"
      /\ BPMMonitoringApp.line self'
         = Deque.to_list (BPMMonitoringApp.HeartRateValues self'))
  /\ (forall self frame,
        BPMWithGUI.heart_rate_frame self = Some frame ->
        exists frame',
          BPMWithGUI.heart_rate_frame
            (snd (for_ (payloads ++ [data]) BPMWithGUI.heart_rate_callback
                    self))
          = Some frame'
          /\ BPMWithGUI.heartRateLabel frame'
             = "Heart Rate: " +++ str (byte_at data 1) +++ " BPM"
          /\ BPMWithGUI.line frame'
             = Deque.to_list (BPMWithGUI.HeartRateValues frame')).
Proof.
  induction payloads as [|d0 payloads IH]; intros Hall.
  - inversion Hall as [|? ? Hlen _]; subst. cbn [app]. split.
    + intros self.
      destruct (heartRateCallback_display data self Hlen) as (Hok & Hl & Hp).
      rewrite (for_cons_run _ _ _ _ Hok). cbv zeta. simpl. now split.
    + intros self frame Hframe.
      destruct (heart_rate_callback_display data self frame Hlen Hframe)
        as (Hok & frame' & Hf' & _ & Hl & Hp & _).
      rewrite (for_cons_run _ _ _ _ Hok). simpl. now exists frame'.
  - inversion Hall as [|? ? Hlen Hall']; subst.
    destruct (IH Hall') as [IHapp IHgui]. split.
    + intros self.
      destruct (heartRateCallback_display d0 self Hlen) as (Hok & _).
      rewrite <- app_comm_cons, (for_cons_run _ _ _ _ Hok). apply IHapp.
    + intros self frame Hframe.
      destruct (heart_rate_callback_display d0 self frame Hlen Hframe)
        as (Hok & frame1 & Hf1 & _).
      rewrite <- app_comm_cons, (for_cons_run _ _ _ _ Hok).
      apply (IHgui _ _ Hf1).
Qed.

Lemma X19_window_shows_the_last_sample_witness :
  BPMMonitoringApp.heartRateLabel
    (snd (for_ ([[x00; x3c]; [x00; x3d]] ++ [[x01; x28; x00]])
            BPMMonitoringApp.heartRateCallback
            (BPMMonitoringApp.__init__ "AA:BB" [])))
  = "Heart Rate: 40 BPM"%string.
Proof.
  apply (proj1 (X19_window_shows_the_last_sample
                  [[x00; x3c]; [x00; x3d]] [x01; x28; x00]
                  ltac:(repeat constructor; simpl; lia))).
Defined.

End Display.
